(** * automl.docker: running benchmarks inside docker images

    A shallow embedding of [automl/docker.py] (class [DockerBenchmark]) and a
    verification of its setup policy, its job factory, its image-reference
    derivation and its parsing of the container engine's output.

    Conventions of the embedding:
    - a Python [str] is a Rocq [string]; its characters are read as the code
      points U+0000 .. U+00FF;
    - a Python [int] is a [Z];
    - [None]-able values are [option]s;
    - calls that leave the process ([run_cmd], [open(...).write], [log.*])
      are recorded, in order, in a trace of events; what the outside answers
      is read from a [World];
    - a raised exception is the left injection of a sum and stops the
      computation that raised it. *)

From Stdlib Require Import ZArith NArith List Bool Lia.
From Stdlib Require Import Ascii String.
From Stdlib Require Import Decimal DecimalString DecimalZ.
Import ListNotations.

Open Scope string_scope.

(** ** Python's built-ins used by the module *)

Module Py.

(** The line feed and the double quote, which have no literal of their own. *)
Definition LF : ascii := ascii_of_nat 10.
Definition DQUOTE : ascii := ascii_of_nat 34.
Definition nl : string := String LF EmptyString.
Definition dq : string := String DQUOTE EmptyString.

Definition code (c : ascii) : N := N_of_ascii c.

Definition in_range (lo hi : N) (c : ascii) : bool :=
  ((lo <=? code c) && (code c <=? hi))%N.

(** [str.isspace] on one character, for the code points below U+0100:
    TAB .. CR, FS .. US, SPACE, NEL and NBSP. *)
Definition isspace (c : ascii) : bool :=
  in_range 9 13 c || in_range 28 32 c
  || (code c =? 133)%N || (code c =? 160)%N.

Fixpoint lstrip (s : string) : string :=
  match s with
  | EmptyString => EmptyString
  | String c s' => if isspace c then lstrip s' else s
  end.

Fixpoint rstrip (s : string) : string :=
  match s with
  | EmptyString => EmptyString
  | String c s' =>
      match rstrip s' with
      | EmptyString => if isspace c then EmptyString else String c EmptyString
      | r => String c r
      end
  end.

(** [s.strip()] *)
Definition strip (s : string) : string := rstrip (lstrip s).

(** [str.lower] on one character, for the code points below U+0100:
    A .. Z and the accented capitals U+00C0 .. U+00DE but the
    multiplication sign U+00D7 move up by 32. *)
Definition lower_char (c : ascii) : ascii :=
  if in_range 65 90 c
     || (in_range 192 222 c && negb (code c =? 215)%N)
  then ascii_of_N (code c + 32)
  else c.

Fixpoint lower (s : string) : string :=
  match s with
  | EmptyString => EmptyString
  | String c s' => String (lower_char c) (lower s')
  end.

(** [str(n)] for an [int]: the decimal writing, with a minus sign. *)
Definition str_of_int (n : Z) : string :=
  NilZero.string_of_int (Z.to_int n).

(** [sep.join(l)] *)
Definition join (sep : string) (l : list string) : string :=
  String.concat sep l.

(** [bool(s)] for a [str]: the empty string is false. *)
Definition truthy (s : string) : bool :=
  match s with EmptyString => false | _ => true end.

(** [sub in s] *)
Fixpoint contains (sub s : string) : bool :=
  String.prefix sub s
  || match s with
     | EmptyString => false
     | String _ s' => contains sub s'
     end.

(** The character class [[0-9a-f]]. *)
Definition is_hex (c : ascii) : bool :=
  in_range 48 57 c || in_range 97 102 c.

(** The longest prefix in the class, and what follows it. *)
Fixpoint span_hex (s : string) : string * string :=
  match s with
  | EmptyString => (EmptyString, EmptyString)
  | String c s' =>
      if is_hex c
      then let (m, r) := span_hex s' in (String c m, r)
      else (EmptyString, s)
  end.

(** [re.match(r'^[0-9a-f]+$', s)]: the text matched, or [None].  Without
    [re.MULTILINE], [$] holds at the end of the string and just before a
    line feed that ends the string. *)
Definition re_match_hex (s : string) : option string :=
  let (m, r) := span_hex s in
  match m with
  | EmptyString => None
  | _ => if (r =? EmptyString) || (r =? nl) then Some m else None
  end.

(** [os.path.join(a, b)] of [posixpath], for a relative [b]. *)
Fixpoint ends_with_slash (a : string) : bool :=
  match a with
  | EmptyString => false
  | String c EmptyString => (code c =? 47)%N
  | String _ a' => ends_with_slash a'
  end.

Definition path_join (a b : string) : string :=
  if negb (truthy a) || ends_with_slash a then a ++ b else a ++ "/" ++ b.

End Py.

(** ** The data model *)

(** [framework_def.docker_image] *)
Module DockerImage.
Record t := mk { author : string; image : option string; tag : string }.
End DockerImage.

Module FrameworkDef.
Record t := mk { name : string; docker_image : DockerImage.t }.
End FrameworkDef.

(** Modelled from the spec: [TaskDef] is declared by the resolver of benchmark
    definitions, outside this module: a named benchmark task with a set of
    folds. *)
Module TaskDef.
Record t := mk { name : string; folds : list Z }.
End TaskDef.

(** [rconfig()]: the fields of the process-wide configuration read here. *)
Module Config.
Record t := mk {
  max_parallel_jobs : Z;
  input_dir : string;
  output_dir : string;
  script : string
}.
End Config.

(** Modelled from the spec: [Benchmark.SetupMode] is declared in the
    [benchmark] module; the setup policy has the modes [skip], [auto] and
    [force]. *)
Module SetupMode.
Inductive t := auto | skip | force.

Definition eqb (a b : t) : bool :=
  match a, b with
  | auto, auto | skip, skip | force, force => true
  | _, _ => false
  end.
End SetupMode.

(** The [fold] argument of [run_one]: [None] (an [option]), one [int], or a
    list of them. *)
Inductive Fold :=
| FoldInt (f : Z)
| FoldList (l : list Z).

(** ** Effects *)

Inductive Level := DEBUG | INFO | WARNING.

(** What leaves the process, in the order it happens. *)
Inductive Event :=
| Log (lvl : Level) (msg : string)
| RunCmd (cmd : string)
| WriteFile (path content : string).

Inductive Exn :=
| CalledProcessError (what : string)
| OSError (what : string)
| TypeError (what : string)
| ValueError (what : string).

(** What the outside answers: the output of a shell command, or the exception
    [run_cmd] raises for it; whether a file can be written. *)
Record World := mkWorld {
  world_run_cmd : string -> Exn + string;
  world_write : string -> string -> Exn + unit
}.

(** A computation reads the world, records its events, and returns or
    raises. *)
Definition M (A : Type) : Type := World -> (Exn + A) * list Event.

Definition ret {A} (a : A) : M A := fun _ => (inr a, []).

Definition raise {A} (e : Exn) : M A := fun _ => (inl e, []).

Definition bind {A B} (m : M A) (k : A -> M B) : M B :=
  fun w =>
    match m w with
    | (inl e, t) => (inl e, t)
    | (inr a, t) => let (r, t') := k a w in (r, (t ++ t')%list)
    end.

Declare Scope monad_scope.
Delimit Scope monad_scope with monad.
Notation "x <- m ;; k" := (bind m (fun x => k))
  (at level 61, m at next level, right associativity) : monad_scope.
Notation "m ;; k" := (bind m (fun _ => k))
  (at level 61, right associativity) : monad_scope.
Open Scope monad_scope.

Definition log (lvl : Level) (msg : string) : M unit :=
  fun _ => (inr tt, [Log lvl msg]).

(** [utils.run_cmd(cmd)] *)
Definition run_cmd (cmd : string) : M string :=
  fun w => (world_run_cmd w cmd, [RunCmd cmd]).

(** [with open(path, 'w') as file: file.write(content)] *)
Definition write_file (path content : string) : M unit :=
  fun w => (world_write w path content, [WriteFile path content]).

Definition result {A} (m : M A) (w : World) : Exn + A := fst (m w).
Definition trace {A} (m : M A) (w : World) : list Event := snd (m w).

(** A [Job]: its identifier and its deferred action. *)
Module Job.
Record t := mk { name : string; _run : M unit }.
End Job.

(** The shell commands of a trace. *)
Fixpoint commands (t : list Event) : list string :=
  match t with
  | [] => []
  | RunCmd c :: t' => c :: commands t'
  | _ :: t' => commands t'
  end.

(** The files written in a trace. *)
Fixpoint writes (t : list Event) : list string :=
  match t with
  | [] => []
  | WriteFile p _ :: t' => p :: writes t'
  | _ :: t' => writes t'
  end.

(** ** The class [DockerBenchmark] *)

Module DockerBenchmark.

(** The attributes of [self] that the module reads.  [docker_commands] is
    what [framework_module.docker_commands()] returns, when the framework's
    module has that attribute. *)
Record t := mk {
  framework_name : string;
  benchmark_name : string;
  parallel_jobs : Z;
  framework_def : FrameworkDef.t;
  docker_commands : option string;
  _framework_dir : string
}.

Definition set_parallel_jobs (self : t) (v : Z) : t :=
  mk (framework_name self) (benchmark_name self) v (framework_def self)
     (docker_commands self) (_framework_dir self).

Definition docker_image_name (framework_def : FrameworkDef.t) : string :=
  let di := FrameworkDef.docker_image framework_def in
  DockerImage.author di ++ "/"
  ++ (match DockerImage.image di with
      | Some i => if Py.truthy i then i
                  else Py.lower (FrameworkDef.name framework_def)
      | None => Py.lower (FrameworkDef.name framework_def)
      end)
  ++ ":" ++ DockerImage.tag di.

Definition _docker_script (self : t) : string :=
  Py.path_join (_framework_dir self) "Dockerfile".

Definition _docker_image_name (self : t) : string :=
  docker_image_name (framework_def self).

(** [self.framework_module.docker_commands() if hasattr(self.framework_module, 'docker_commands') else ""] *)
Definition custom_commands_of (self : t) : string :=
  match docker_commands self with
  | Some c => c
  | None => EmptyString
  end.

Section WithConfig.

Variable rconfig : Config.t.

Definition _validate (self : t) : M t :=
  if (parallel_jobs self =? 0)%Z
     || (parallel_jobs self >? Config.max_parallel_jobs rconfig)%Z
  then
    log WARNING ("forcing parallelization to its upper limit: "
                 ++ Py.str_of_int (Config.max_parallel_jobs rconfig)) ;;
    ret (set_parallel_jobs self (Config.max_parallel_jobs rconfig))
  else ret self.

Definition _docker_image_exists (self : t) : M (option string) :=
  output <- run_cmd ("docker images -q " ++ _docker_image_name self) ;;
  log DEBUG ("docker image id: " ++ output) ;;
  ret (Py.re_match_hex (Py.strip output)).

Definition build_command (self : t) (cache : bool) : string :=
  "docker build " ++ (if cache then EmptyString else "--no-cache")
  ++ " -t " ++ _docker_image_name self
  ++ " -f " ++ _docker_script self ++ " .".

Definition _build_docker_image (self : t) (cache : bool) : M unit :=
  log INFO ("Building docker image " ++ _docker_image_name self) ;;
  output <- run_cmd (build_command self cache) ;;
  log INFO ("Successfully built docker image " ++ _docker_image_name self) ;;
  log DEBUG output.

Definition upload_command (self : t) : string :=
  "docker login && docker push " ++ _docker_image_name self.

Definition _upload_docker_image (self : t) : M unit :=
  log INFO ("Publishing docker image " ++ _docker_image_name self) ;;
  output <- run_cmd (upload_command self) ;;
  log INFO ("Successfully published docker image " ++ _docker_image_name self) ;;
  log DEBUG output.

Definition docker_content (self : t) (custom_commands : string) : string :=
  Py.join Py.nl [
    "FROM ubuntu:18.04";
    EmptyString;
    "RUN apt-get update";
    "RUN apt-get install -y curl wget unzip git";
    "RUN apt-get install -y python3 python3-pip python3-venv";
    "RUN pip3 install --upgrade pip";
    EmptyString;
    "# We create a virtual environment so that AutoML systems may use their preferred versions of ";
    "# packages that we need to data pre- and postprocessing without breaking it.";
    "ENV PIP /venvs/bench/bin/pip3";
    "ENV PY /venvs/bench/bin/python3 -W ignore";
    "ENV SPIP pip3";
    "ENV SPY python3";
    EmptyString;
    "RUN $SPY -m venv /venvs/bench";
    "RUN $PIP install --upgrade pip";
    EmptyString;
    "WORKDIR /bench";
    "VOLUME /input";
    "VOLUME /output";
    EmptyString;
    "# Add the AutoML system except files listed in .dockerignore (could also use git clone directly?)";
    "ADD . /bench/";
    EmptyString;
    "RUN $PIP install --no-cache-dir -r requirements.txt --process-dependency-links";
    "RUN $PIP install --no-cache-dir openml";
    EmptyString;
    custom_commands;
    EmptyString;
    "# https://docs.docker.com/engine/reference/builder/#entrypoint";
    "ENTRYPOINT [" ++ Py.dq ++ "/bin/bash" ++ Py.dq ++ ", " ++ Py.dq ++ "-c" ++ Py.dq ++ ", " ++ Py.dq ++ "$PY " ++ Config.script rconfig ++ " $0 $*" ++ Py.dq ++ "]";
    "CMD [" ++ Py.dq ++ framework_name self ++ Py.dq ++ ", " ++ Py.dq ++ "test" ++ Py.dq ++ "]";
    EmptyString;
    EmptyString
  ].

Definition _generate_docker_script (self : t) (custom_commands : string) : M unit :=
  write_file (_docker_script self) (docker_content self custom_commands).

Definition setup (self : t) (mode : SetupMode.t) (upload : bool) : M unit :=
  if SetupMode.eqb mode SetupMode.skip then ret tt
  else
    present <- (if SetupMode.eqb mode SetupMode.auto
                then _docker_image_exists self
                else ret None) ;;
    match present with
    | Some _ => ret tt
    | None =>
        let custom_commands := custom_commands_of self in
        _generate_docker_script self custom_commands ;;
        _build_docker_image self (negb (SetupMode.eqb mode SetupMode.force)) ;;
        if upload then _upload_docker_image self else ret tt
    end.

Definition start_command (self : t) (script_params : string) : string :=
  "docker run -v " ++ Config.input_dir rconfig ++ ":/input -v "
  ++ Config.output_dir rconfig ++ ":/output --rm "
  ++ _docker_image_name self ++ " " ++ script_params
  ++ " -i /input -o /output -s skip".

Definition _start_docker (self : t) (script_params : string) : M unit :=
  let in_dir := Config.input_dir rconfig in
  let out_dir := Config.output_dir rconfig in
  let cmd := start_command self script_params in
  log INFO ("Starting docker: " ++ cmd) ;;
  log INFO ("Datasets are loaded by default from folder " ++ in_dir) ;;
  log INFO ("Generated files will be available in folder " ++ out_dir) ;;
  output <- run_cmd cmd ;;
  log DEBUG output.

(** The parameters [_make_job]'s action hands to [_start_docker]; [folds]
    are already strings. *)
Definition script_params (self : t) (task_name : option string)
           (folds : list string) : string :=
  framework_name self ++ " " ++ benchmark_name self ++ " "
  ++ (match task_name with
      | None => EmptyString
      | Some tn => "-t " ++ tn
      end)
  ++ " "
  ++ (if (List.length folds =? 0)%nat then EmptyString
      else Py.join " " ("-f" :: folds)).

Definition job_name (self : t) (task_name : option string)
           (folds : list string) : string :=
  "docker_"
  ++ (match task_name with
      | Some tn => if Py.truthy tn then tn else benchmark_name self
      | None => benchmark_name self
      end)
  ++ "_" ++ Py.join ":" folds ++ "_" ++ framework_name self.

Definition _make_job (self : t) (task_name : option string)
           (folds : option (list Z)) : Job.t :=
  let folds := match folds with
               | None => []
               | Some l => List.map Py.str_of_int l
               end in
  let _run := _start_docker self (script_params self task_name folds) in
  Job.mk (job_name self task_name folds) _run.

Definition _fold_job (self : t) (task_def : TaskDef.t) (fold : Z) : Job.t :=
  _make_job self (Some (TaskDef.name task_def)) (Some [fold]).

(** [fold] as [_make_job] iterates over it: an [int] is not iterable. *)
Definition iter_fold (fold : option Fold) : M (option (list Z)) :=
  match fold with
  | None => ret None
  | Some (FoldList l) => ret (Some l)
  | Some (FoldInt _) => raise (TypeError "'int' object is not iterable")
  end.

(** Modelled from the spec: [Benchmark._custom_task_jobs] is defined in
    the [benchmark] module; it produces one [Job] per fold, each made by
    [_fold_job]: for the folds named, or for all folds of the task when
    none is named. *)
Definition _custom_task_jobs (self : t) (task_def : TaskDef.t)
           (fold : option Fold) : list Job.t :=
  match fold with
  | None => List.map (_fold_job self task_def) (TaskDef.folds task_def)
  | Some (FoldInt f) => [_fold_job self task_def f]
  | Some (FoldList l) => List.map (_fold_job self task_def) l
  end.

(** The methods inherited from [Benchmark], and the types of what they
    exchange; they live in the [benchmark] and [results] modules.
    Modelled from the spec: [_get_task_def] is the resolver of benchmark
    definitions, which supplies the [TaskDef] of a task name. *)
Section WithBenchmark.

Variables Results Scores : Type.
Variable show_results : Results -> string.
Variable _benchmark_jobs : t -> M (list Job.t).
Variable _get_task_def : t -> string -> TaskDef.t.
Variable _run_jobs : t -> list Job.t -> M Results.
Variable _process_results : t -> Results -> option string -> bool -> M Scores.

(** The list [jobs] that [run] hands to [_run_jobs]. *)
Definition jobs_for_benchmark (self : t) : M (list Job.t) :=
  if (parallel_jobs self =? 1)%Z
  then ret [_make_job self None None]
  else _benchmark_jobs self.

Definition run (self : t) (save_scores : bool) : M Scores :=
  jobs <- jobs_for_benchmark self ;;
  results <- _run_jobs self jobs ;;
  log DEBUG ("results from docker run (merged to other scores but not to global scores yet): "
             ++ show_results results) ;;
  _process_results self results None save_scores.

(** The list [jobs] that [run_one] hands to [_run_jobs]. *)
Definition jobs_for_task (self : t) (task_name : string)
           (fold : option Fold) : M (list Job.t) :=
  if (parallel_jobs self =? 1)%Z
     && (match fold with
         | None => true
         | Some (FoldList l) => (Z.of_nat (List.length l) >? 1)%Z
         | Some (FoldInt _) => false
         end)
  then
    folds <- iter_fold fold ;;
    ret [_make_job self (Some task_name) folds]
  else
    let task_def := _get_task_def self task_name in
    ret (_custom_task_jobs self task_def fold).

Definition run_one (self : t) (task_name : string) (fold : option Fold)
           (save_scores : bool) : M Scores :=
  jobs <- jobs_for_task self task_name fold ;;
  results <- _run_jobs self jobs ;;
  log DEBUG ("results from docker run (merged to other scores but not to global scores yet): "
             ++ show_results results) ;;
  _process_results self results (Some task_name) save_scores.

End WithBenchmark.

End WithConfig.

End DockerBenchmark.

(** ** Sample values *)

Module Sample.
Import DockerBenchmark.

Definition h2o_def : FrameworkDef.t :=
  FrameworkDef.mk "h2o" (DockerImage.mk "org" None "stable").

Definition conf : Config.t := Config.mk 4 "/data/in" "/data/out" "runbenchmark.py".

Definition bench : DockerBenchmark.t :=
  DockerBenchmark.mk "h2o" "small" 1 h2o_def None "frameworks/h2o".

Definition t1 : TaskDef.t := TaskDef.mk "t1" [0%Z; 1%Z; 2%Z].

(** A world in which the image is absent, every command succeeds with no
    output and every file can be written. *)
Definition quiet : World :=
  mkWorld (fun _ => inr EmptyString) (fun _ _ => inr tt).

(** The same world with a framework directory that cannot be written. *)
Definition readonly : World :=
  mkWorld (fun _ => inr EmptyString) (fun p _ => inl (OSError p)).

(** A world in which the engine knows the image. *)
Definition built : World :=
  mkWorld (fun _ => inr ("a1b2c3d4" ++ Py.nl)) (fun _ _ => inr tt).
End Sample.

(** ** Predicates used in the statements *)

(** Every character of [s] satisfies [p]. *)
Fixpoint all_chars (p : ascii -> bool) (s : string) : bool :=
  match s with
  | EmptyString => true
  | String c s' => p c && all_chars p s'
  end.

(** A non-empty string of the digits 0-9 and a-f. *)
Definition hex_identifier (s : string) : bool :=
  Py.truthy s && all_chars Py.is_hex s.

(** An upper-case hexadecimal digit, A .. F. *)
Definition is_upper_hex (c : ascii) : bool := Py.in_range 65 70 c.

(** An upper-case letter of ASCII, A .. Z. *)
Definition is_ascii_upper (c : ascii) : bool := Py.in_range 65 90 c.

(** A character of ASCII: a code point below 128. *)
Definition is_ascii (c : ascii) : bool := (Py.code c <? 128)%N.

(** What the check answers for a given output of the engine:
    [bool(re.match(...))]. *)
Definition image_exists (output : string) : bool :=
  match Py.re_match_hex (Py.strip output) with
  | Some _ => true
  | None => false
  end.

(** The folds a [fold] argument names in a task: all of them for [None]. *)
Definition folds_named (task_def : TaskDef.t) (fold : option Fold) : list Z :=
  match fold with
  | None => TaskDef.folds task_def
  | Some (FoldInt f) => [f]
  | Some (FoldList l) => l
  end.

(** A character other than the colon that joins the folds of an identifier. *)
Definition not_colon (c : ascii) : bool := negb (c =? ":")%char.

(** The query of the existence check. *)
Definition query_command (self : DockerBenchmark.t) : string :=
  "docker images -q " ++ DockerBenchmark._docker_image_name self.

(** What the container runs: the tail of the command after the image. *)
Definition in_container_cli (script_params : string) : string :=
  script_params ++ " -i /input -o /output -s skip".

(** The value of [parallel_jobs] the spec asks of the validation. *)
Definition spec_clamp (v max_parallel_jobs : Z) : Z :=
  if ((1 <=? v) && (v <=? max_parallel_jobs))%Z then v else max_parallel_jobs.

(** The command line the spec describes:
    [<framework> [<benchmark>|-t <task>] [-f <fold> ...] -i /input -o /output -s skip],
    each fold with a flag of its own. *)
Definition spec_cli (framework benchmark : string) (task : option string)
           (folds : list Z) : string :=
  let name := match task with None => benchmark | Some tn => "-t " ++ tn end in
  let flags := List.map (fun f => "-f " ++ Py.str_of_int f) folds in
  Py.join " "
    (framework :: name :: List.app flags ["-i /input -o /output -s skip"]).

(** The events of a trace that act on the outside: all but the log records. *)
Fixpoint effects (t : list Event) : list Event :=
  match t with
  | [] => []
  | Log _ _ :: t' => effects t'
  | e :: t' => e :: effects t'
  end.

(** The actions of a setup that meets no failure, in the order of the source:
    the query (mode [auto] only), the descriptor, the build, the publication
    (on request only). *)
Definition setup_pipeline (rconfig : Config.t) (self : DockerBenchmark.t)
           (mode : SetupMode.t) (upload : bool) : list Event :=
  match mode with
  | SetupMode.skip => []
  | _ =>
      List.app
        (if SetupMode.eqb mode SetupMode.auto
         then [RunCmd (query_command self)] else [])
        (List.app
           [WriteFile (DockerBenchmark._docker_script self)
              (DockerBenchmark.docker_content rconfig self
                 (DockerBenchmark.custom_commands_of self));
            RunCmd (DockerBenchmark.build_command self
                      (negb (SetupMode.eqb mode SetupMode.force)))]
           (if upload then [RunCmd (DockerBenchmark.upload_command self)] else []))
  end.

(** [s] holds no character [c]. *)
Definition lacks (c : ascii) (s : string) : bool :=
  all_chars (fun x => negb (x =? c)%char) s.

(** An upper-case letter among the code points below U+0100: A .. Z and the
    accented capitals. *)
Definition is_upper (c : ascii) : bool :=
  Py.in_range 65 90 c
  || (Py.in_range 192 222 c && negb (Py.code c =? 215)%N).

(** The image part of a reference: the image of the definition, or the
    lower-cased framework name when there is none or an empty one. *)
Definition image_component (framework_def : FrameworkDef.t) : string :=
  match DockerImage.image (FrameworkDef.docker_image framework_def) with
  | Some i => if Py.truthy i then i
              else Py.lower (FrameworkDef.name framework_def)
  | None => Py.lower (FrameworkDef.name framework_def)
  end.

(** The name under which [_make_job] files a job: the task name, or the
    benchmark name when there is no task name or an empty one. *)
Definition filed_under (self : DockerBenchmark.t) (task_name : option string) : string :=
  match task_name with
  | Some tn => if Py.truthy tn then tn else DockerBenchmark.benchmark_name self
  | None => DockerBenchmark.benchmark_name self
  end.

(** The folds of a job as [_make_job] reads its argument. *)
Definition folds_of (folds : option (list Z)) : list Z :=
  match folds with
  | None => []
  | Some l => l
  end.

(** ** Checks of the built-ins on sample inputs *)

Example strip_id : Py.strip ("a1b2c3d4" ++ Py.nl) = "a1b2c3d4".
Proof. reflexivity. Qed.

Example strip_both : Py.strip ("  a b " ++ Py.nl ++ " ") = "a b".
Proof. reflexivity. Qed.

Example str_of_int_neg : Py.str_of_int (-12) = "-12".
Proof. reflexivity. Qed.

Example str_of_int_zero : Py.str_of_int 0 = "0".
Proof. reflexivity. Qed.

Example join_three : Py.join " " ["-f"; "0"; "1"] = "-f 0 1".
Proof. reflexivity. Qed.

Example lower_mixed : Py.lower "H2O-AutoML" = "h2o-automl".
Proof. reflexivity. Qed.

Example strip_blank : Py.strip ("  " ++ Py.nl) = EmptyString.
Proof. reflexivity. Qed.

Example match_id : Py.re_match_hex "a1b2c3d4" = Some "a1b2c3d4".
Proof. reflexivity. Qed.

Example match_before_final_newline :
  Py.re_match_hex ("a1b2" ++ Py.nl) = Some "a1b2".
Proof. reflexivity. Qed.

Example no_match_two_lines :
  Py.re_match_hex ("a1b2" ++ Py.nl ++ "c3d4") = None.
Proof. reflexivity. Qed.

Example no_match_empty : Py.re_match_hex EmptyString = None.
Proof. reflexivity. Qed.

Example no_match_upper : Py.re_match_hex "A1B2" = None.
Proof. reflexivity. Qed.

Example path_join_dir : Py.path_join "frameworks/h2o" "Dockerfile" = "frameworks/h2o/Dockerfile".
Proof. reflexivity. Qed.


(** ** Strings *)

Section StringFacts.

Lemma str_app_assoc (a b c : string) : (a ++ b) ++ c = a ++ (b ++ c).
Proof.
  induction a as [|x a IH]; simpl; [reflexivity | now rewrite IH].
Qed.

Lemma str_app_nil_r (a : string) : a ++ EmptyString = a.
Proof.
  induction a as [|x a IH]; simpl; [reflexivity | now rewrite IH].
Qed.

Lemma str_app_inv_head (a x y : string) : a ++ x = a ++ y -> x = y.
Proof.
  induction a as [|c a IH]; simpl; intros H; [exact H|].
  injection H as H. now apply IH.
Qed.

Lemma str_app_length (a b : string) :
  String.length (a ++ b) = (String.length a + String.length b)%nat.
Proof.
  induction a as [|c a IH]; simpl; [reflexivity | now rewrite IH].
Qed.

Lemma str_app_inv_tail (a x y : string) : x ++ a = y ++ a -> x = y.
Proof.
  revert y. induction x as [|c x IH]; intros [|d y] H; simpl in H.
  - reflexivity.
  - apply (f_equal String.length) in H. simpl in H.
    rewrite str_app_length in H. lia.
  - apply (f_equal String.length) in H. simpl in H.
    rewrite str_app_length in H. lia.
  - injection H as -> H. f_equal. now apply IH.
Qed.

Lemma prefix_app (s b : string) : String.prefix s (s ++ b) = true.
Proof.
  induction s as [|c s IH]; simpl.
  - now destruct b.
  - destruct (ascii_dec c c) as [_|N]; [exact IH | now elim N].
Qed.

Lemma prefix_refl (s : string) : String.prefix s s = true.
Proof.
  rewrite <- (str_app_nil_r s) at 2. apply prefix_app.
Qed.

Lemma contains_prefix (sub s : string) :
  String.prefix sub s = true -> Py.contains sub s = true.
Proof.
  intros H. destruct s; cbn [Py.contains]; rewrite H; reflexivity.
Qed.

Lemma prefix_app_l (sub s b : string) :
  String.prefix sub s = true -> String.prefix sub (s ++ b) = true.
Proof.
  revert s. induction sub as [|c sub IH]; intros [|d s]; simpl; intros H;
    try reflexivity; try discriminate.
  - now destruct b.
  - destruct (ascii_dec c d); [now apply IH | discriminate].
Qed.

(** [sub in s] gives [sub in s + b] *)
Lemma contains_app_l (sub s b : string) :
  Py.contains sub s = true -> Py.contains sub (s ++ b) = true.
Proof.
  induction s as [|c s IH]; intros H.
  - cbn [Py.contains] in H. rewrite orb_false_r in H.
    apply contains_prefix. now apply prefix_app_l.
  - cbn [Py.contains] in H. apply orb_true_iff in H as [H|H].
    + apply contains_prefix. now apply prefix_app_l.
    + change (String c s ++ b) with (String c (s ++ b)).
      cbn [Py.contains]. rewrite (IH H). apply orb_true_r.
Qed.

(** [sub in s] gives [sub in a + s] *)
Lemma contains_app_r (sub a s : string) :
  Py.contains sub s = true -> Py.contains sub (a ++ s) = true.
Proof.
  intros H. induction a as [|c a IH]; [exact H|].
  change (String c a ++ s) with (String c (a ++ s)).
  cbn [Py.contains]. rewrite IH. apply orb_true_r.
Qed.

Lemma all_chars_app (p : ascii -> bool) (a b : string) :
  all_chars p (a ++ b) = all_chars p a && all_chars p b.
Proof.
  induction a as [|c a IH]; simpl; [reflexivity|].
  now rewrite IH, andb_assoc.
Qed.

End StringFacts.

(** ** The image reference *)

Import DockerBenchmark.

(** The reference as a function of the four fields alone. *)
Lemma docker_image_name_fields (name author tag : string) (image : option string) :
  docker_image_name (FrameworkDef.mk name (DockerImage.mk author image tag))
  = author ++ "/"
    ++ (match image with
        | Some i => if Py.truthy i then i else Py.lower name
        | None => Py.lower name
        end)
    ++ ":" ++ tag.
Proof. reflexivity. Qed.

(** Lower-casing, character by character: a letter A .. Z moves to the
    letter 32 code points above it, any other ASCII character stays. *)
Lemma lower_char_ascii (c : ascii) :
  (Py.code c < 128)%N ->
  Py.lower_char c
  = if is_ascii_upper c then ascii_of_N (Py.code c + 32) else c.
Proof.
  unfold Py.lower_char, is_ascii_upper, Py.in_range. intros H.
  destruct ((65 <=? Py.code c) && (Py.code c <=? 90))%N; [reflexivity|].
  cbn [orb].
  replace (192 <=? Py.code c)%N with false
    by (symmetry; apply N.leb_gt; lia).
  reflexivity.
Qed.

Lemma lower_char_no_ascii_upper (c : ascii) :
  is_ascii_upper (Py.lower_char c) = false.
Proof.
  destruct c as [[] [] [] [] [] [] [] []]; reflexivity.
Qed.

Lemma lower_no_ascii_upper (s : string) :
  all_chars (fun c => negb (is_ascii_upper c)) (Py.lower s) = true.
Proof.
  induction s as [|c s IH]; [reflexivity|].
  cbn [Py.lower all_chars]. now rewrite lower_char_no_ascii_upper, IH.
Qed.

Lemma lower_length (s : string) : String.length (Py.lower s) = String.length s.
Proof.
  induction s as [|c s IH]; [reflexivity|].
  cbn [Py.lower String.length]. now rewrite IH.
Qed.

Lemma lower_get (s : string) (n : nat) (c : ascii) :
  String.get n s = Some c ->
  String.get n (Py.lower s) = Some (Py.lower_char c).
Proof.
  revert n. induction s as [|x s IH]; intros n H; [discriminate|].
  destruct n as [|n]; cbn [Py.lower String.get] in *.
  - now injection H as ->.
  - now apply IH.
Qed.

Lemma all_chars_get (p : ascii -> bool) (s : string) (n : nat) (c : ascii) :
  all_chars p s = true -> String.get n s = Some c -> p c = true.
Proof.
  revert n. induction s as [|x s IH]; intros n Hall H; [discriminate|].
  cbn [all_chars] in Hall. apply andb_true_iff in Hall as [Hx Hs].
  destruct n as [|n]; cbn [String.get] in H.
  - now injection H as <-.
  - now apply (IH n).
Qed.

(** C5. The image reference is a function of the fields of the framework
    definition: two definitions with the same name, author, image and tag
    have the same reference [author/image:tag]; an image that is given is
    used as it is; without an image the lower-cased framework name stands in
    its place: an image part free of the letters A .. Z and, for a name
    written in ASCII, as long as the name, with every letter A .. Z of the
    name turned into the matching letter a .. z and every other character
    kept.  Framework [h2o] of author [org] with tag [stable] and no image
    has the reference [org/h2o:stable], and so has framework [H2O]; author
    and tag are not lower-cased. *)
Theorem docker_image_name_pure :
  (forall d1 d2 : FrameworkDef.t,
      FrameworkDef.name d1 = FrameworkDef.name d2 ->
      DockerImage.author (FrameworkDef.docker_image d1)
      = DockerImage.author (FrameworkDef.docker_image d2) ->
      DockerImage.image (FrameworkDef.docker_image d1)
      = DockerImage.image (FrameworkDef.docker_image d2) ->
      DockerImage.tag (FrameworkDef.docker_image d1)
      = DockerImage.tag (FrameworkDef.docker_image d2) ->
      docker_image_name d1 = docker_image_name d2)
  /\ (forall name author tag : string,
         docker_image_name (FrameworkDef.mk name (DockerImage.mk author None tag))
         = author ++ "/" ++ Py.lower name ++ ":" ++ tag)
  /\ (forall name author i tag : string,
         Py.truthy i = true ->
         docker_image_name (FrameworkDef.mk name (DockerImage.mk author (Some i) tag))
         = author ++ "/" ++ i ++ ":" ++ tag)
  /\ docker_image_name
       (FrameworkDef.mk "h2o" (DockerImage.mk "org" None "stable"))
     = "org/h2o:stable"
  /\ (forall name author tag : string,
         exists img : string,
           docker_image_name
             (FrameworkDef.mk name (DockerImage.mk author None tag))
           = author ++ "/" ++ img ++ ":" ++ tag
           /\ all_chars (fun c => negb (is_ascii_upper c)) img = true
           /\ (all_chars is_ascii name = true ->
               String.length img = String.length name
               /\ forall (n : nat) (c : ascii),
                   String.get n name = Some c ->
                   String.get n img
                   = Some (if is_ascii_upper c
                           then ascii_of_N (Py.code c + 32) else c)))
  /\ docker_image_name
       (FrameworkDef.mk "H2O" (DockerImage.mk "org" None "stable"))
     = "org/h2o:stable"
  /\ docker_image_name
       (FrameworkDef.mk "AutoSklearn" (DockerImage.mk "Org" None "V1"))
     = "Org/autosklearn:V1".
Proof.
  split; [|split; [|split; [|split; [|split; [|split]]]]].
  - intros [n1 [a1 i1 t1]] [n2 [a2 i2 t2]]; simpl.
    intros -> -> -> ->. reflexivity.
  - reflexivity.
  - intros name author i tag Hi. rewrite docker_image_name_fields.
    now rewrite Hi.
  - reflexivity.
  - intros name author tag. exists (Py.lower name).
    split; [reflexivity|].
    split; [apply lower_no_ascii_upper|].
    intros Hascii. split; [apply lower_length|].
    intros n c Hget. rewrite (lower_get name n c Hget).
    rewrite lower_char_ascii; [reflexivity|].
    apply N.ltb_lt. exact (all_chars_get is_ascii name n c Hascii Hget).
  - reflexivity.
  - reflexivity.
Qed.

Lemma docker_image_name_pure_witness :
  docker_image_name (FrameworkDef.mk "H2O" (DockerImage.mk "org" None "stable"))
  = docker_image_name (FrameworkDef.mk "H2O" (DockerImage.mk "org" None "stable"))
  /\ docker_image_name
       (FrameworkDef.mk "H2O" (DockerImage.mk "org" (Some "h2o-3") "stable"))
     = "org/h2o-3:stable"
  /\ (exists img : string,
         docker_image_name
           (FrameworkDef.mk "H2O" (DockerImage.mk "org" None "stable"))
         = "org/" ++ img ++ ":stable"
         /\ String.get 0 img = Some "h"%char
         /\ String.get 1 img = Some "2"%char
         /\ String.get 2 img = Some "o"%char).
Proof.
  destruct docker_image_name_pure as (Hsame & _ & Himage & _ & Hlower & _).
  split; [|split].
  - apply Hsame; reflexivity.
  - apply (Himage "H2O" "org" "h2o-3" "stable"). reflexivity.
  - destruct (Hlower "H2O" "org" "stable") as (img & Href & _ & Hascii).
    destruct (Hascii eq_refl) as [_ Hget].
    exists img. split; [exact Href|].
    split; [|split].
    + apply (Hget 0%nat "H"%char). reflexivity.
    + apply (Hget 1%nat "2"%char). reflexivity.
    + apply (Hget 2%nat "O"%char). reflexivity.
Defined.

(** ** Validation of [parallel_jobs] *)

(** What [_validate] does on any request: it never raises, it moves the
    request to the ceiling when the request is 0 or above the ceiling and
    logs one warning, and it leaves any other request as it is, silently. *)
Lemma validate_spec (rconfig : Config.t) (self : DockerBenchmark.t) (w : World) :
  let v := parallel_jobs self in
  let mx := Config.max_parallel_jobs rconfig in
  _validate rconfig self w
  = if ((v =? 0) || (v >? mx))%Z
    then (inr (set_parallel_jobs self mx),
          [Log WARNING ("forcing parallelization to its upper limit: "
                        ++ Py.str_of_int mx)])
    else (inr self, []).
Proof.
  cbv zeta. unfold _validate.
  destruct ((parallel_jobs self =? 0) || _)%Z; reflexivity.
Qed.

Lemma set_parallel_jobs_same (self : DockerBenchmark.t) :
  set_parallel_jobs self (parallel_jobs self) = self.
Proof. now destruct self. Qed.

(** C3 (amended).  For every requested value [v >= 0], validation returns
    (it never raises) with [parallel_jobs] equal to [v] when
    [1 <= v <= max_parallel_jobs] and to [max_parallel_jobs] otherwise, that
    is for [v = 0] and for [v] above the ceiling; a correction logs one
    warning, and a request in range logs nothing. *)
Theorem validate_clamps_nonnegative
        (rconfig : Config.t) (self : DockerBenchmark.t) (w : World) :
  (0 <= parallel_jobs self)%Z ->
  let v := parallel_jobs self in
  let mx := Config.max_parallel_jobs rconfig in
  result (_validate rconfig self) w
  = inr (set_parallel_jobs self (spec_clamp v mx))
  /\ trace (_validate rconfig self) w
     = if ((1 <=? v) && (v <=? mx))%Z then []
       else [Log WARNING ("forcing parallelization to its upper limit: "
                          ++ Py.str_of_int mx)].
Proof.
  intros Hv v mx. unfold result, trace. rewrite validate_spec.
  fold v mx. unfold spec_clamp.
  destruct (Z.eqb_spec v 0) as [E0|N0];
    destruct (Z.gtb_spec v mx) as [G|G];
    destruct (Z.leb_spec 1 v) as [L1|L1];
    destruct (Z.leb_spec v mx) as [L2|L2];
    simpl; try lia; try (split; reflexivity).
  split; [|reflexivity]. unfold v. now rewrite set_parallel_jobs_same.
Qed.

Lemma validate_clamps_nonnegative_witness :
  result (_validate Sample.conf (set_parallel_jobs Sample.bench 9)) Sample.quiet
  = inr (set_parallel_jobs Sample.bench 4)
  /\ result (_validate Sample.conf (set_parallel_jobs Sample.bench 0)) Sample.quiet
     = inr (set_parallel_jobs Sample.bench 4)
  /\ result (_validate Sample.conf (set_parallel_jobs Sample.bench 3)) Sample.quiet
     = inr (set_parallel_jobs Sample.bench 3).
Proof.
  split; [|split].
  - apply (validate_clamps_nonnegative Sample.conf
             (set_parallel_jobs Sample.bench 9) Sample.quiet). simpl. lia.
  - apply (validate_clamps_nonnegative Sample.conf
             (set_parallel_jobs Sample.bench 0) Sample.quiet). simpl. lia.
  - apply (validate_clamps_nonnegative Sample.conf
             (set_parallel_jobs Sample.bench 3) Sample.quiet). simpl. lia.
Defined.

(** C3, as stated, fails on a negative request: with the ceiling at 4, the
    request -3 is outside [1, 4] and should become 4, and validation leaves
    it at -3 without a warning. *)
Lemma validate_negative_counterexample :
  _validate Sample.conf (set_parallel_jobs Sample.bench (-3)) Sample.quiet
  = (inr (set_parallel_jobs Sample.bench (-3)), [])
  /\ spec_clamp (-3) (Config.max_parallel_jobs Sample.conf) = 4%Z
  /\ result (_validate Sample.conf (set_parallel_jobs Sample.bench (-3))) Sample.quiet
     <> inr (set_parallel_jobs Sample.bench
               (spec_clamp (-3) (Config.max_parallel_jobs Sample.conf))).
Proof.
  repeat split. discriminate.
Qed.

(** A negative request that is not above the ceiling passes validation
    unchanged. *)
Lemma validate_negative (rconfig : Config.t) (self : DockerBenchmark.t) (w : World) :
  (parallel_jobs self < 0)%Z ->
  (parallel_jobs self <= Config.max_parallel_jobs rconfig)%Z ->
  _validate rconfig self w = (inr self, []).
Proof.
  intros Hneg Hle. rewrite validate_spec.
  destruct (Z.eqb_spec (parallel_jobs self) 0); [lia|].
  destruct (Z.gtb_spec (parallel_jobs self) (Config.max_parallel_jobs rconfig));
    [lia | reflexivity].
Qed.

(** ** The existence check *)

Section ExistenceCheck.

Lemma span_hex_spec (s m r : string) :
  Py.span_hex s = (m, r) ->
  s = m ++ r /\ all_chars Py.is_hex m = true.
Proof.
  revert m r. induction s as [|c s IH]; simpl; intros m r H.
  - injection H as <- <-. now split.
  - destruct (Py.is_hex c) eqn:Hc.
    + destruct (Py.span_hex s) as [m' r'] eqn:Hs.
      injection H as <- <-. destruct (IH m' r' eq_refl) as [-> Hm].
      simpl. now rewrite Hc, Hm.
    + injection H as <- <-. now split.
Qed.

Lemma span_hex_all (s : string) :
  all_chars Py.is_hex s = true -> Py.span_hex s = (s, EmptyString).
Proof.
  induction s as [|c s IH]; simpl; intros H; [reflexivity|].
  apply andb_true_iff in H as [Hc Hs]. now rewrite Hc, (IH Hs).
Qed.

(** What a match of [^[0-9a-f]+$] says of the subject. *)
Lemma re_match_hex_Some (s m : string) :
  Py.re_match_hex s = Some m ->
  hex_identifier m = true /\ (s = m \/ s = m ++ Py.nl).
Proof.
  unfold Py.re_match_hex.
  destruct (Py.span_hex s) as [m' r] eqn:Hs.
  apply span_hex_spec in Hs as [-> Hm].
  destruct m' as [|c m']; [discriminate|].
  destruct (String.eqb_spec r EmptyString) as [->|Hr]; simpl orb.
  - intros [= <-]. split.
    + unfold hex_identifier. now rewrite Hm.
    + left. apply str_app_nil_r.
  - destruct (String.eqb_spec r Py.nl) as [->|Hr']; [|discriminate].
    intros [= <-]. split.
    + unfold hex_identifier. now rewrite Hm.
    + now right.
Qed.

Lemma re_match_hex_identifier (s : string) :
  hex_identifier s = true -> Py.re_match_hex s = Some s.
Proof.
  unfold hex_identifier, Py.re_match_hex. intros H.
  apply andb_true_iff in H as [Hne Hall].
  rewrite (span_hex_all s Hall). now destruct s.
Qed.

(** A right-stripped string does not end with white space. *)
Lemma rstrip_last (s a : string) (c : ascii) :
  Py.rstrip s = a ++ String c EmptyString -> Py.isspace c = false.
Proof.
  revert a. induction s as [|x s IH]; intros a H; simpl in H.
  - now destruct a.
  - destruct (Py.rstrip s) as [|y r] eqn:Hr.
    + destruct (Py.isspace x) eqn:Hx.
      * now destruct a.
      * destruct a as [|a0 a]; simpl in H.
        -- now injection H as <-.
        -- injection H as _ H. now destruct a.
    + destruct a as [|a0 a]; simpl in H; [discriminate|].
      injection H as _ H. apply (IH a). exact H.
Qed.

Lemma strip_no_final_newline (output m : string) :
  Py.strip output <> m ++ Py.nl.
Proof.
  unfold Py.strip, Py.nl. intros H. apply rstrip_last in H. discriminate.
Qed.

(** The check matches exactly the outputs that strip to an identifier. *)
Lemma re_match_strip (output : string) :
  Py.re_match_hex (Py.strip output)
  = if hex_identifier (Py.strip output) then Some (Py.strip output) else None.
Proof.
  destruct (hex_identifier (Py.strip output)) eqn:Hid.
  - now apply re_match_hex_identifier.
  - destruct (Py.re_match_hex (Py.strip output)) as [m|] eqn:Hm; [|reflexivity].
    apply re_match_hex_Some in Hm as [Hhex [E|E]].
    + rewrite E in Hid. congruence.
    + now apply strip_no_final_newline in E.
Qed.

Lemma image_exists_spec (output : string) :
  image_exists output = hex_identifier (Py.strip output).
Proof.
  unfold image_exists. rewrite re_match_strip.
  now destruct (hex_identifier (Py.strip output)).
Qed.

(** The check runs one query and, when the engine answers, returns. *)
Lemma docker_image_exists_runs (self : DockerBenchmark.t) (w : World) (output : string) :
  world_run_cmd w ("docker images -q " ++ _docker_image_name self) = inr output ->
  _docker_image_exists self w
  = (inr (Py.re_match_hex (Py.strip output)),
     [RunCmd ("docker images -q " ++ _docker_image_name self);
      Log DEBUG ("docker image id: " ++ output)]).
Proof.
  intros H. unfold _docker_image_exists, bind, run_cmd, log, ret.
  rewrite H. reflexivity.
Qed.

Lemma hex_identifier_outside (a b : string) (c : ascii) :
  Py.is_hex c = false -> hex_identifier (a ++ String c b) = false.
Proof.
  intros Hc. unfold hex_identifier. rewrite all_chars_app. simpl.
  rewrite Hc. rewrite andb_false_r. apply andb_false_r.
Qed.

Lemma upper_hex_not_hex (c : ascii) : is_upper_hex c = true -> Py.is_hex c = false.
Proof.
  unfold is_upper_hex, Py.is_hex, Py.in_range.
  intros H. apply andb_true_iff in H as [H1 H2].
  apply N.leb_le in H1, H2.
  apply orb_false_iff. split; apply andb_false_iff.
  - right. apply N.leb_gt. lia.
  - left. apply N.leb_gt. lia.
Qed.

End ExistenceCheck.

(** C4. When the engine answers the query with [output], the check returns
    and never raises: it finds the image for the output [a1b2c3d4] followed
    by a line feed, it finds none for the empty output and for
    [Error: no such image] followed by a line feed, and in general it finds
    none whenever the stripped output is not a non-empty run of the digits
    0-9 and a-f, and finds the image otherwise. *)
Theorem image_exists_check (self : DockerBenchmark.t) (w : World) (output : string) :
  world_run_cmd w ("docker images -q " ++ _docker_image_name self) = inr output ->
  (output = "a1b2c3d4" ++ Py.nl ->
   result (_docker_image_exists self) w = inr (Some "a1b2c3d4"))
  /\ (output = EmptyString ->
      result (_docker_image_exists self) w = inr None)
  /\ (output = "Error: no such image" ++ Py.nl ->
      result (_docker_image_exists self) w = inr None)
  /\ (hex_identifier (Py.strip output) = false ->
      result (_docker_image_exists self) w = inr None)
  /\ (hex_identifier (Py.strip output) = true ->
      result (_docker_image_exists self) w = inr (Some (Py.strip output))).
Proof.
  intros Hout. unfold result.
  rewrite (docker_image_exists_runs self w output Hout). simpl fst.
  repeat apply conj.
  - intros ->. reflexivity.
  - intros ->. reflexivity.
  - intros ->. reflexivity.
  - intros Hid. now rewrite re_match_strip, Hid.
  - intros Hid. now rewrite re_match_strip, Hid.
Qed.

Lemma image_exists_check_witness :
  result (_docker_image_exists Sample.bench) Sample.built = inr (Some "a1b2c3d4")
  /\ result (_docker_image_exists Sample.bench) Sample.quiet = inr None.
Proof.
  split.
  - apply (image_exists_check Sample.bench Sample.built ("a1b2c3d4" ++ Py.nl));
      reflexivity.
  - apply (image_exists_check Sample.bench Sample.quiet EmptyString);
      reflexivity.
Defined.

(** C10. The check accepts lower-case identifiers only: when the stripped
    output of the engine holds a character outside 0-9 and a-f, and an
    upper-case digit A-F is such a character, the check finds no image; so
    it does for [A1B2C3D4] followed by a line feed. *)
Theorem image_exists_lower_case_only
        (self : DockerBenchmark.t) (w : World) (output : string) :
  world_run_cmd w ("docker images -q " ++ _docker_image_name self) = inr output ->
  (forall (a b : string) (c : ascii),
      Py.strip output = a ++ String c b ->
      Py.is_hex c = false \/ is_upper_hex c = true ->
      result (_docker_image_exists self) w = inr None)
  /\ (output = "A1B2C3D4" ++ Py.nl ->
      result (_docker_image_exists self) w = inr None).
Proof.
  intros Hout. unfold result.
  rewrite (docker_image_exists_runs self w output Hout). simpl fst.
  split.
  - intros a b c Hs Hc. rewrite re_match_strip, Hs.
    rewrite hex_identifier_outside; [reflexivity|].
    destruct Hc as [Hc|Hc]; [exact Hc | now apply upper_hex_not_hex].
  - intros ->. reflexivity.
Qed.

Lemma image_exists_lower_case_only_witness :
  result (_docker_image_exists Sample.bench)
         (mkWorld (fun _ => inr ("a1B2" ++ Py.nl)) (fun _ _ => inr tt))
  = inr None.
Proof.
  destruct (image_exists_lower_case_only Sample.bench
              (mkWorld (fun _ => inr ("a1B2" ++ Py.nl)) (fun _ _ => inr tt))
              ("a1B2" ++ Py.nl) eq_refl) as [Hany _].
  apply (Hany "a1" "2" "B"%char); [reflexivity | right; reflexivity].
Defined.

(** ** Setup *)

Arguments DockerBenchmark.docker_content : simpl never.
Arguments DockerBenchmark.build_command : simpl never.
Arguments DockerBenchmark.upload_command : simpl never.
Arguments DockerBenchmark._docker_script : simpl never.
Arguments DockerBenchmark._docker_image_name : simpl never.
Arguments DockerBenchmark.custom_commands_of : simpl never.
Arguments Py.re_match_hex : simpl never.
Arguments Py.strip : simpl never.
Arguments String.append : simpl never.

Arguments query_command : simpl never.

Section SetupFacts.

Variable rconfig : Config.t.
Variable self : DockerBenchmark.t.

Lemma build_cache_differs : build_command self true <> build_command self false.
Proof. unfold build_command. cbv [String.append]. discriminate. Qed.

Lemma query_not_build (cache : bool) : query_command self <> build_command self cache.
Proof.
  unfold query_command, build_command. cbv [String.append]. discriminate.
Qed.

Lemma upload_not_build (cache : bool) : upload_command self <> build_command self cache.
Proof.
  unfold upload_command, build_command. cbv [String.append]. discriminate.
Qed.

Lemma query_not_upload : query_command self <> upload_command self.
Proof.
  unfold query_command, upload_command. cbv [String.append]. discriminate.
Qed.

(** Mode [skip] does nothing at all. *)
Lemma setup_skip (upload : bool) (w : World) :
  setup rconfig self SetupMode.skip upload w = (inr tt, []).
Proof. reflexivity. Qed.

End SetupFacts.

Section SetupPolicy.

Variable rconfig : Config.t.
Variable self : DockerBenchmark.t.

Ltac ask_world :=
  repeat match goal with
    | |- context [world_run_cmd ?w ?c] =>
        let E := fresh "E" in destruct (world_run_cmd w c) eqn:E; cbn
    | |- context [world_write ?w ?p ?c] =>
        let E := fresh "E" in destruct (world_write w p c) eqn:E; cbn
    | |- context [Py.re_match_hex ?s] =>
        let E := fresh "E" in destruct (Py.re_match_hex s) eqn:E; cbn
    end.

Ltac run_setup :=
  unfold setup, _docker_image_exists, _generate_docker_script,
    _build_docker_image, _upload_docker_image,
    bind, ret, log, run_cmd, write_file;
  cbn.

Ltac settle :=
  fold (query_command self);
  pose proof (build_cache_differs self);
  pose proof (query_not_build self true);
  pose proof (query_not_build self false);
  pose proof (upload_not_build self true);
  pose proof (upload_not_build self false);
  pose proof (query_not_upload self);
  intuition (congruence || discriminate).

(** C1. Setup's build policy.  In mode [skip] setup does nothing: no
    query, no descriptor, no build, no publication, whatever the engine
    would answer.  In every world a build that setup runs is the one its
    policy names: without the cache in mode [force], with the cache in mode
    [auto] after the existence check returned that there is no image.
    Conversely, when the build descriptor can be written, mode [force]
    runs the build without the cache and mode [auto], after a check that
    found no image, runs the build with the cache.  Setup runs no other
    command than the query, that one build and the publication. *)
Theorem setup_build_policy (mode : SetupMode.t) (upload : bool) (w : World) :
  let cmds := commands (trace (setup rconfig self mode upload) w) in
  let written :=
    result (_generate_docker_script rconfig self (custom_commands_of self)) w
    = inr tt in
  let absent := result (_docker_image_exists self) w = inr None in
  setup rconfig self SetupMode.skip upload w = (inr tt, [])
  /\ (forall cache : bool,
         In (build_command self cache) cmds ->
         (mode = SetupMode.force /\ cache = false)
         \/ (mode = SetupMode.auto /\ absent /\ cache = true))
  /\ (written -> mode = SetupMode.force -> In (build_command self false) cmds)
  /\ (written -> mode = SetupMode.auto -> absent ->
      In (build_command self true) cmds)
  /\ (forall c : string,
         In c cmds ->
         c = query_command self
         \/ c = build_command self (negb (SetupMode.eqb mode SetupMode.force))
         \/ c = upload_command self).
Proof.
  unfold result, trace, _generate_docker_script, write_file. cbn.
  split; [reflexivity|].
  split; [intros cache|].
  - destruct mode, upload, cache; run_setup; ask_world; settle.
  - destruct mode, upload; run_setup; ask_world;
      (split; [intros Hgen; try rewrite Hgen in *|
               split; [intros Hgen; try rewrite Hgen in *|]]);
      settle.
Qed.

(** C9. When the build descriptor cannot be written, setup runs neither
    the build nor the publication, in any mode; and where it came to
    write the descriptor, it raises the error of the write: always in
    mode [force], and in mode [auto] when the check found no image. *)
Theorem setup_aborts_on_write_failure
        (mode : SetupMode.t) (upload : bool) (w : World) (e : Exn) :
  result (_generate_docker_script rconfig self (custom_commands_of self)) w
  = inl e ->
  let t := trace (setup rconfig self mode upload) w in
  (forall cache : bool, ~ In (build_command self cache) (commands t))
  /\ ~ In (upload_command self) (commands t)
  /\ (writes t <> [] -> result (setup rconfig self mode upload) w = inl e)
  /\ (mode = SetupMode.force ->
      result (setup rconfig self mode upload) w = inl e)
  /\ (mode = SetupMode.auto ->
      result (_docker_image_exists self) w = inr None ->
      result (setup rconfig self mode upload) w = inl e).
Proof.
  unfold result, trace, _generate_docker_script, write_file. cbn.
  intros Hgen.
  destruct mode, upload; run_setup; rewrite ?Hgen; cbn; ask_world;
    (split; [intros [|]|]); settle.
Qed.

End SetupPolicy.

Lemma setup_build_policy_witness :
  In (build_command Sample.bench false)
     (commands (trace (setup Sample.conf Sample.bench SetupMode.force true)
                      Sample.quiet))
  /\ In (build_command Sample.bench true)
        (commands (trace (setup Sample.conf Sample.bench SetupMode.auto false)
                         Sample.quiet)).
Proof.
  split.
  - destruct (setup_build_policy Sample.conf Sample.bench SetupMode.force true
                Sample.quiet) as (_ & _ & Hforce & _).
    apply Hforce; reflexivity.
  - destruct (setup_build_policy Sample.conf Sample.bench SetupMode.auto false
                Sample.quiet) as (_ & _ & _ & Hauto & _).
    apply Hauto; reflexivity.
Defined.

Lemma setup_aborts_on_write_failure_witness :
  result (setup Sample.conf Sample.bench SetupMode.force true) Sample.readonly
  = inl (OSError "frameworks/h2o/Dockerfile")
  /\ ~ In (build_command Sample.bench false)
          (commands (trace (setup Sample.conf Sample.bench SetupMode.force true)
                           Sample.readonly)).
Proof.
  destruct (setup_aborts_on_write_failure Sample.conf Sample.bench
              SetupMode.force true Sample.readonly
              (OSError "frameworks/h2o/Dockerfile") eq_refl)
    as (Hbuild & _ & _ & Hforce & _).
  split.
  - apply Hforce. reflexivity.
  - apply Hbuild.
Defined.

(** ** Decimal writing of folds *)

Section FoldStrings.

Lemma string_of_uint_no_colon (d : Decimal.uint) :
  all_chars not_colon (NilEmpty.string_of_uint d) = true.
Proof. induction d; simpl; auto. Qed.

Lemma str_of_int_no_colon (z : Z) : all_chars not_colon (Py.str_of_int z) = true.
Proof.
  unfold Py.str_of_int, NilZero.string_of_int, NilZero.string_of_uint.
  destruct (Z.to_int z) as [d|d]; destruct d; simpl;
    try reflexivity; apply string_of_uint_no_colon.
Qed.

Lemma str_of_int_nonempty (z : Z) : Py.str_of_int z <> EmptyString.
Proof.
  unfold Py.str_of_int, NilZero.string_of_int, NilZero.string_of_uint.
  destruct (Z.to_int z) as [d|d]; destruct d; simpl; discriminate.
Qed.

Lemma to_int_proper (z : Z) :
  Z.to_int z <> Decimal.Pos Decimal.Nil /\ Z.to_int z <> Decimal.Neg Decimal.Nil.
Proof.
  destruct z as [|p|p]; simpl; split; try discriminate;
    intros [= H]; now apply DecimalPos.Unsigned.to_uint_nonnil in H.
Qed.

(** [str] is one-to-one on the integers. *)
Lemma str_of_int_inj (a b : Z) : Py.str_of_int a = Py.str_of_int b -> a = b.
Proof.
  unfold Py.str_of_int. intros H.
  apply (f_equal NilZero.int_of_string) in H.
  destruct (to_int_proper a) as [Ha1 Ha2], (to_int_proper b) as [Hb1 Hb2].
  rewrite !NilZero.isi in H by assumption.
  injection H as H. now apply DecimalZ.to_int_inj.
Qed.

(** Two colon-free strings followed by nothing or by a colon agree as soon
    as the whole texts agree. *)
Lemma split_at_colon (x1 x2 r1 r2 : string) :
  all_chars not_colon x1 = true ->
  all_chars not_colon x2 = true ->
  (r1 = EmptyString \/ exists r, r1 = String ":" r) ->
  (r2 = EmptyString \/ exists r, r2 = String ":" r) ->
  x1 ++ r1 = x2 ++ r2 ->
  x1 = x2 /\ r1 = r2.
Proof.
  revert x2. induction x1 as [|c1 x1 IH]; intros [|c2 x2] H1 H2 Hr1 Hr2 E;
    cbn [String.append] in E.
  - now split.
  - cbn in H2. apply andb_true_iff in H2 as [Hc _].
    destruct Hr1 as [->|[r ->]]; [discriminate|].
    injection E as <- _. discriminate.
  - cbn in H1. apply andb_true_iff in H1 as [Hc _].
    destruct Hr2 as [->|[r ->]]; [discriminate|].
    injection E as -> _. discriminate.
  - cbn in H1, H2.
    apply andb_true_iff in H1 as [_ H1]. apply andb_true_iff in H2 as [_ H2].
    injection E as -> E.
    destruct (IH x2 H1 H2 Hr1 Hr2 E) as [-> ->]. now split.
Qed.

Lemma join_cons (sep x : string) (l : list string) :
  Py.join sep (x :: l)
  = x ++ match l with
         | [] => EmptyString
         | _ :: _ => sep ++ Py.join sep l
         end.
Proof.
  unfold Py.join. destruct l; cbn [String.concat]; [|reflexivity].
  now rewrite str_app_nil_r.
Qed.

(** The colon-joined writing of a list of folds determines the list. *)
Lemma join_folds_inj (l1 l2 : list Z) :
  Py.join ":" (List.map Py.str_of_int l1) = Py.join ":" (List.map Py.str_of_int l2) ->
  l1 = l2.
Proof.
  revert l2. induction l1 as [|a l1 IH]; intros [|b l2] E.
  - reflexivity.
  - cbn [List.map] in E. rewrite join_cons in E.
    pose proof (str_of_int_nonempty b) as Hb.
    destruct (Py.str_of_int b); [now elim Hb | discriminate].
  - cbn [List.map] in E. rewrite join_cons in E.
    pose proof (str_of_int_nonempty a) as Ha.
    destruct (Py.str_of_int a); [now elim Ha | discriminate].
  - cbn [List.map] in E. rewrite !join_cons in E.
    apply split_at_colon in E as [Eab Et].
    + apply str_of_int_inj in Eab as ->. f_equal.
      destruct l1 as [|a' l1], l2 as [|b' l2]; cbn [List.map] in Et;
        try reflexivity; try discriminate.
      apply IH. cbn [List.map].
      now apply (str_app_inv_head ":").
    + apply str_of_int_no_colon.
    + apply str_of_int_no_colon.
    + destruct l1; cbn [List.map]; [now left | right; eexists; reflexivity].
    + destruct l2; cbn [List.map]; [now left | right; eexists; reflexivity].
Qed.

End FoldStrings.

(** ** The job factory *)

Arguments DockerBenchmark.start_command : simpl never.
Arguments DockerBenchmark.script_params : simpl never.
Arguments DockerBenchmark.job_name : simpl never.

Section JobFactory.

Variable rconfig : Config.t.
Variable self : DockerBenchmark.t.

(** Running a job runs one command, whatever the engine answers. *)
Lemma make_job_commands (task_name : option string) (folds : option (list Z))
      (w : World) :
  commands (trace (Job._run (_make_job rconfig self task_name folds)) w)
  = [start_command rconfig self
       (script_params self task_name
          (match folds with
           | None => []
           | Some l => List.map Py.str_of_int l
           end))].
Proof.
  unfold trace, _make_job, _start_docker, bind, log, run_cmd. cbn.
  destruct (world_run_cmd w _); reflexivity.
Qed.

Lemma start_command_cli (params : string) :
  start_command rconfig self params
  = "docker run -v " ++ Config.input_dir rconfig ++ ":/input -v "
    ++ Config.output_dir rconfig ++ ":/output --rm "
    ++ _docker_image_name self ++ " " ++ in_container_cli params.
Proof. reflexivity. Qed.

(** C2 (amended).  The action of every job made by [_make_job] runs one
    command, [docker run] with the two mounts and the image, whose
    in-container part is the framework name, the benchmark name (always),
    [-t] and the task name when a task is given, one [-f] followed by the
    space-joined folds when folds are given, and at the end always
    [-i /input -o /output -s skip]. *)
Theorem make_job_command_line (task_name : option string)
        (folds : option (list Z)) (w : World) :
  let task_param :=
    match task_name with
    | None => EmptyString
    | Some tn => "-t " ++ tn
    end in
  let folds_param :=
    match folds with
    | None | Some [] => EmptyString
    | Some (f :: l) => "-f " ++ Py.join " " (List.map Py.str_of_int (f :: l))
    end in
  commands (trace (Job._run (_make_job rconfig self task_name folds)) w)
  = ["docker run -v " ++ Config.input_dir rconfig ++ ":/input -v "
     ++ Config.output_dir rconfig ++ ":/output --rm "
     ++ _docker_image_name self ++ " "
     ++ (framework_name self ++ " " ++ benchmark_name self ++ " "
         ++ task_param ++ " " ++ folds_param)
     ++ " -i /input -o /output -s skip"].
Proof.
  cbv zeta. rewrite make_job_commands, start_command_cli.
  unfold in_container_cli, script_params.
  destruct folds as [[|f l]|]; reflexivity.
Qed.

(** The identifier of a job tells its folds. *)
Lemma job_name_folds_inj (task_name : option string) (l1 l2 : list Z) :
  Job.name (_make_job rconfig self task_name (Some l1))
  = Job.name (_make_job rconfig self task_name (Some l2)) ->
  l1 = l2.
Proof.
  unfold _make_job, job_name. cbn [Job.name]. intros E.
  apply (str_app_inv_head "docker_") in E.
  apply str_app_inv_head in E.
  apply (str_app_inv_head "_") in E.
  apply str_app_inv_tail in E.
  now apply join_folds_inj.
Qed.

(** C8. The fold subset is part of a job's identifier: two jobs of the
    same task and framework made for two different lists of folds have
    different identifiers; so have the jobs of task [t1] for the fold [0]
    and for the fold [1], whose identifiers end in [t1_0_] and [t1_1_]
    followed by the framework name. *)
Theorem job_names_distinct_by_folds :
  (forall (task_name : option string) (l1 l2 : list Z),
      l1 <> l2 ->
      Job.name (_make_job rconfig self task_name (Some l1))
      <> Job.name (_make_job rconfig self task_name (Some l2)))
  /\ Job.name (_make_job rconfig self (Some "t1") (Some [0%Z]))
     = "docker_t1_0_" ++ framework_name self
  /\ Job.name (_make_job rconfig self (Some "t1") (Some [1%Z]))
     = "docker_t1_1_" ++ framework_name self
  /\ Job.name (_make_job rconfig self (Some "t1") (Some [0%Z]))
     <> Job.name (_make_job rconfig self (Some "t1") (Some [1%Z])).
Proof.
  assert (Hd : forall (task_name : option string) (l1 l2 : list Z),
             l1 <> l2 ->
             Job.name (_make_job rconfig self task_name (Some l1))
             <> Job.name (_make_job rconfig self task_name (Some l2))).
  { intros task_name l1 l2 Hne E. apply Hne.
    now apply (job_name_folds_inj task_name). }
  split; [exact Hd|].
  split; [reflexivity|]. split; [reflexivity|].
  apply Hd. discriminate.
Qed.

(** The jobs made fold by fold for distinct folds have distinct
    identifiers. *)
Lemma fold_jobs_names_nodup (task_def : TaskDef.t) (l : list Z) :
  NoDup l ->
  NoDup (List.map (fun f => Job.name (_fold_job rconfig self task_def f)) l).
Proof.
  induction 1 as [|f l Hnin Hnd IH]; cbn [List.map]; constructor; [|exact IH].
  intros Hin. apply in_map_iff in Hin as [g [E Hg]].
  unfold _fold_job in E. apply job_name_folds_inj in E.
  injection E as ->. contradiction.
Qed.

End JobFactory.

Lemma job_names_distinct_by_folds_witness :
  Job.name (_make_job Sample.conf Sample.bench (Some "t1") (Some [0%Z; 1%Z]))
  <> Job.name (_make_job Sample.conf Sample.bench (Some "t1") (Some [1%Z; 0%Z])).
Proof.
  destruct (job_names_distinct_by_folds Sample.conf Sample.bench) as [Hd _].
  apply Hd. discriminate.
Defined.

(** C2, as stated, fails on a task with two folds: the command names the
    benchmark beside [-t t1], and gives one [-f] for both folds, so that
    fold 1 has no flag of its own. *)
Lemma make_job_command_line_counterexample :
  commands (trace (Job._run (_make_job Sample.conf Sample.bench
                               (Some "t1") (Some [0%Z; 1%Z])))
                  Sample.quiet)
  = ["docker run -v /data/in:/input -v /data/out:/output --rm org/h2o:stable h2o small -t t1 -f 0 1 -i /input -o /output -s skip"]
  /\ spec_cli "h2o" "small" (Some "t1") [0%Z; 1%Z]
     = "h2o -t t1 -f 0 -f 1 -i /input -o /output -s skip"
  /\ in_container_cli (script_params Sample.bench (Some "t1")
                         (List.map Py.str_of_int [0%Z; 1%Z]))
     <> spec_cli "h2o" "small" (Some "t1") [0%Z; 1%Z]
  /\ Py.contains "-f 1"
       (start_command Sample.conf Sample.bench
          (script_params Sample.bench (Some "t1")
             (List.map Py.str_of_int [0%Z; 1%Z])))
     = false.
Proof.
  split; [reflexivity|]. split; [reflexivity|].
  split; [|reflexivity]. vm_compute. discriminate.
Qed.

(** ** The jobs of a run *)

Section Runs.

Variable rconfig : Config.t.
Variable _benchmark_jobs : DockerBenchmark.t -> M (list Job.t).
Variable _get_task_def : DockerBenchmark.t -> string -> TaskDef.t.
Variable self : DockerBenchmark.t.

(** C6. A run of the whole benchmark with [parallel_jobs = 1] makes one
    job, the one [_make_job] makes without a task and without folds: its
    identifier is [docker_], the benchmark name, two underscores and the
    framework name; its action runs one command, whose in-container part
    is the framework name, the benchmark name and the fixed end
    [-i /input -o /output -s skip], with no [-t] and no [-f] argument
    between them. *)
Theorem single_job_for_benchmark (w : World) :
  parallel_jobs self = 1%Z ->
  let job := _make_job rconfig self None None in
  jobs_for_benchmark rconfig _benchmark_jobs self w = (inr [job], [])
  /\ Job.name job
     = "docker_" ++ benchmark_name self ++ "__" ++ framework_name self
  /\ (forall w' : World,
         commands (trace (Job._run job) w')
         = ["docker run -v " ++ Config.input_dir rconfig ++ ":/input -v "
            ++ Config.output_dir rconfig ++ ":/output --rm "
            ++ _docker_image_name self ++ " "
            ++ (framework_name self ++ " " ++ benchmark_name self ++ "  ")
            ++ " -i /input -o /output -s skip"]).
Proof.
  intros Hp job. split; [|split].
  - unfold jobs_for_benchmark. rewrite Hp. reflexivity.
  - reflexivity.
  - intros w'. unfold job. rewrite make_job_commands. reflexivity.
Qed.

Lemma custom_task_jobs_map (task_def : TaskDef.t) (fold : option Fold) :
  _custom_task_jobs rconfig self task_def fold
  = List.map (_fold_job rconfig self task_def) (folds_named task_def fold).
Proof. now destruct fold as [[f|l]|]. Qed.

(** The command of the job of one fold names the fold after [-f]. *)
Lemma fold_job_command_flag (task_def : TaskDef.t) (f : Z) (w : World) :
  exists cmd : string,
    commands (trace (Job._run (_fold_job rconfig self task_def f)) w) = [cmd]
    /\ Py.contains ("-f " ++ Py.str_of_int f) cmd = true.
Proof.
  unfold _fold_job. rewrite make_job_commands. eexists. split; [reflexivity|].
  unfold start_command, script_params.
  do 7 apply contains_app_r.
  apply contains_app_l.
  do 6 apply contains_app_r.
  apply contains_prefix.
  cbn [List.map List.length Nat.eqb].
  unfold Py.join. cbn [String.concat].
  change ("-f" ++ " " ++ Py.str_of_int f) with ("-f " ++ Py.str_of_int f).
  apply prefix_refl.
Qed.

(** C7. The jobs of a run of one task.  With [parallel_jobs = 1] and a
    fold argument that is [None] or a list of more than one fold, there is
    one job, made for the task with these folds together.  Otherwise, that
    is with another [parallel_jobs], with a single [int], or with a list of
    at most one fold, there is one job per fold named (per fold of the
    task for [None]), each made by [_fold_job].  In particular for
    [parallel_jobs = 1] and the fold 0, as an [int] or as a list, there
    is one job, and its command contains [-f 0]. *)
Theorem jobs_for_task_policy (task_name : string) (fold : option Fold) (w : World) :
  let jobs := jobs_for_task rconfig _get_task_def self task_name fold w in
  let task_def := _get_task_def self task_name in
  (parallel_jobs self = 1%Z -> fold = None ->
   jobs = (inr [_make_job rconfig self (Some task_name) None], []))
  /\ (parallel_jobs self = 1%Z ->
      forall l : list Z,
        fold = Some (FoldList l) -> (1 < List.length l)%nat ->
        jobs = (inr [_make_job rconfig self (Some task_name) (Some l)], []))
  /\ (parallel_jobs self <> 1%Z
      \/ (exists f : Z, fold = Some (FoldInt f))
      \/ (exists l : list Z, fold = Some (FoldList l) /\ (List.length l <= 1)%nat) ->
      jobs = (inr (List.map (_fold_job rconfig self task_def)
                            (folds_named task_def fold)), []))
  /\ (parallel_jobs self = 1%Z ->
      fold = Some (FoldInt 0) \/ fold = Some (FoldList [0%Z]) ->
      exists job : Job.t,
        jobs = (inr [job], [])
        /\ forall w' : World,
            exists cmd : string,
              commands (trace (Job._run job) w') = [cmd]
              /\ Py.contains "-f 0" cmd = true).
Proof.
  cbv zeta. unfold jobs_for_task. repeat apply conj.
  - intros -> ->. reflexivity.
  - intros -> l -> Hl.
    replace (Z.of_nat (List.length l) >? 1)%Z with true
      by (symmetry; apply Z.gtb_lt; lia).
    reflexivity.
  - intros [Hp|[[f ->]|[l [-> Hl]]]].
    + replace (parallel_jobs self =? 1)%Z with false
        by (symmetry; now apply Z.eqb_neq).
      cbn [andb]. unfold ret. now rewrite custom_task_jobs_map.
    + rewrite andb_false_r. reflexivity.
    + replace (Z.of_nat (List.length l) >? 1)%Z with false
        by (symmetry; destruct (Z.gtb_spec (Z.of_nat (List.length l)) 1);
            [lia | reflexivity]).
      rewrite andb_false_r. reflexivity.
  - intros -> [-> | ->];
      exists (_fold_job rconfig self (_get_task_def self task_name) 0);
      (split; [reflexivity|]);
      intros w'; apply (fold_job_command_flag _ 0%Z w').
Qed.

End Runs.

Lemma single_job_for_benchmark_witness :
  jobs_for_benchmark Sample.conf (fun _ => ret []) Sample.bench Sample.quiet
  = (inr [_make_job Sample.conf Sample.bench None None], [])
  /\ Job.name (_make_job Sample.conf Sample.bench None None) = "docker_small__h2o".
Proof.
  destruct (single_job_for_benchmark Sample.conf (fun _ => ret []) Sample.bench
              Sample.quiet eq_refl) as (Hjobs & Hname & _).
  split; [exact Hjobs | exact Hname].
Defined.

Lemma jobs_for_task_policy_witness :
  jobs_for_task Sample.conf (fun _ _ => Sample.t1) Sample.bench "t1"
                (Some (FoldList [0%Z; 1%Z])) Sample.quiet
  = (inr [_make_job Sample.conf Sample.bench (Some "t1") (Some [0%Z; 1%Z])], [])
  /\ jobs_for_task Sample.conf (fun _ _ => Sample.t1)
                   (set_parallel_jobs Sample.bench 2) "t1" None Sample.quiet
     = (inr (List.map (_fold_job Sample.conf (set_parallel_jobs Sample.bench 2)
                                 Sample.t1) [0%Z; 1%Z; 2%Z]), []).
Proof.
  split.
  - destruct (jobs_for_task_policy Sample.conf (fun _ _ => Sample.t1)
                Sample.bench "t1" (Some (FoldList [0%Z; 1%Z])) Sample.quiet)
      as (_ & Hlist & _).
    apply Hlist; [reflexivity | reflexivity | simpl; lia].
  - destruct (jobs_for_task_policy Sample.conf (fun _ _ => Sample.t1)
                (set_parallel_jobs Sample.bench 2) "t1" None Sample.quiet)
      as (_ & _ & Hper & _).
    apply Hper. left. discriminate.
Defined.

(** ** More on setup: order, failures, publication *)

Section SetupEffects.

Variable rconfig : Config.t.
Variable self : DockerBenchmark.t.

Ltac answer :=
  repeat match goal with
    | |- context [world_run_cmd ?w ?c] =>
        let E := fresh "E" in destruct (world_run_cmd w c) eqn:E; cbn
    | |- context [world_write ?w ?p ?c] =>
        let E := fresh "E" in destruct (world_write w p c) eqn:E; cbn
    | |- context [Py.re_match_hex ?s] =>
        let E := fresh "E" in destruct (Py.re_match_hex s) eqn:E; cbn
    end.

Ltac unfold_setup :=
  unfold setup, _docker_image_exists, _generate_docker_script,
    _build_docker_image, _upload_docker_image,
    bind, ret, log, run_cmd, write_file;
  cbn.

Ltac close_commands :=
  fold (query_command self) in *;
  pose proof (build_cache_differs self);
  pose proof (query_not_build self true);
  pose proof (query_not_build self false);
  pose proof (upload_not_build self true);
  pose proof (upload_not_build self false);
  pose proof (query_not_upload self);
  intuition (congruence || discriminate).

(** X1. Whatever the engine and the file system answer, what setup does to the
    outside is an initial part of its pipeline: it never builds before it
    wrote the descriptor, never publishes before it built, does nothing
    twice and writes no other file. *)
Theorem setup_effects_in_order (mode : SetupMode.t) (upload : bool) (w : World) :
  exists rest : list Event,
    List.app (effects (trace (setup rconfig self mode upload) w)) rest
    = setup_pipeline rconfig self mode upload.
Proof.
  unfold trace, setup_pipeline.
  destruct mode, upload; unfold_setup; answer;
    fold (query_command self); eexists; cbn; reflexivity.
Qed.

(** X2. In mode [auto], when the engine answers the query with an identifier,
    bare or wrapped in white space, setup returns at once: it has run the
    query only, has written no descriptor, built nothing and, even when
    asked to upload, published nothing. *)
Theorem setup_auto_keeps_existing_image (upload : bool) (w : World) (output : string) :
  world_run_cmd w (query_command self) = inr output ->
  hex_identifier (Py.strip output) = true ->
  setup rconfig self SetupMode.auto upload w
  = (inr tt, [RunCmd (query_command self);
              Log DEBUG ("docker image id: " ++ output)]).
Proof.
  unfold query_command. intros Hout Hid. unfold_setup.
  rewrite Hout. cbn. rewrite re_match_strip, Hid. reflexivity.
Qed.

(** X3. Mode [force] never asks the engine whether the image exists, and always
    starts by writing the descriptor, to the [Dockerfile] of the framework
    directory and nowhere else. *)
Theorem setup_force_never_queries (upload : bool) (w : World) :
  let t := trace (setup rconfig self SetupMode.force upload) w in
  ~ In (query_command self) (commands t)
  /\ writes t = [_docker_script self].
Proof.
  unfold trace. destruct upload; unfold_setup; answer; split;
    try reflexivity; close_commands.
Qed.

(** X4. In mode [auto], when the query itself fails, setup fails with the error
    of the query and has done nothing else: the failure is not read as an
    absent image. *)
Theorem setup_auto_query_failure (upload : bool) (w : World) (e : Exn) :
  world_run_cmd w (query_command self) = inl e ->
  setup rconfig self SetupMode.auto upload w
  = (inl e, [RunCmd (query_command self)]).
Proof.
  unfold query_command. intros Hq. unfold_setup. now rewrite Hq.
Qed.

(** X5. When the build that setup runs fails, setup fails with the error of the
    build, and the image is not published, even on request. *)
Theorem setup_build_failure (mode : SetupMode.t) (upload cache : bool)
        (w : World) (e : Exn) :
  In (build_command self cache)
     (commands (trace (setup rconfig self mode upload) w)) ->
  world_run_cmd w (build_command self cache) = inl e ->
  result (setup rconfig self mode upload) w = inl e
  /\ ~ In (upload_command self)
          (commands (trace (setup rconfig self mode upload) w)).
Proof.
  unfold result, trace.
  destruct mode, upload, cache; unfold_setup; answer; close_commands.
Qed.

(** X6. Setup publishes the image exactly when the caller asked for the upload
    and setup ran a build that succeeded: never for an image it found, and
    never after a failed descriptor or build. *)
Theorem setup_publishes_iff (mode : SetupMode.t) (upload : bool) (w : World) :
  let cmds := commands (trace (setup rconfig self mode upload) w) in
  In (upload_command self) cmds
  <-> upload = true
      /\ exists (cache : bool) (out : string),
          In (build_command self cache) cmds
          /\ world_run_cmd w (build_command self cache) = inr out.
Proof.
  unfold trace. cbv zeta.
  destruct mode, upload; unfold_setup; answer;
    (split;
     [ intros Hin;
       (split; [try reflexivity|]);
       first [ exists true; eexists; split; [right; left; reflexivity | eassumption]
             | exists true; eexists; split; [left; reflexivity | eassumption]
             | exists false; eexists; split; [left; reflexivity | eassumption]
             | close_commands ]
     | intros [Hup [cache [out [Hin Hok]]]];
       destruct cache; close_commands ]).
Qed.

End SetupEffects.

Lemma setup_auto_keeps_existing_image_witness :
  setup Sample.conf Sample.bench SetupMode.auto true Sample.built
  = (inr tt, [RunCmd "docker images -q org/h2o:stable";
              Log DEBUG ("docker image id: a1b2c3d4" ++ Py.nl)]).
Proof.
  apply (setup_auto_keeps_existing_image Sample.conf Sample.bench true
           Sample.built ("a1b2c3d4" ++ Py.nl)); reflexivity.
Defined.

Lemma setup_auto_query_failure_witness :
  setup Sample.conf Sample.bench SetupMode.auto true
        (mkWorld (fun c => inl (CalledProcessError c)) (fun _ _ => inr tt))
  = (inl (CalledProcessError "docker images -q org/h2o:stable"),
     [RunCmd "docker images -q org/h2o:stable"]).
Proof.
  apply (setup_auto_query_failure Sample.conf Sample.bench true
           (mkWorld (fun c => inl (CalledProcessError c)) (fun _ _ => inr tt))
           (CalledProcessError "docker images -q org/h2o:stable")).
  reflexivity.
Defined.

Lemma setup_build_failure_witness :
  result (setup Sample.conf Sample.bench SetupMode.force true)
         (mkWorld (fun c => inl (CalledProcessError c)) (fun _ _ => inr tt))
  = inl (CalledProcessError (build_command Sample.bench false)).
Proof.
  apply (setup_build_failure Sample.conf Sample.bench SetupMode.force true false
           (mkWorld (fun c => inl (CalledProcessError c)) (fun _ _ => inr tt))
           (CalledProcessError (build_command Sample.bench false))).
  - left. reflexivity.
  - reflexivity.
Defined.

(** ** More on validation *)

Section ValidationFacts.

Variable rconfig : Config.t.

(** X7. Validation never leaves a request above the ceiling, whatever the
    request and the ceiling; it changes no other attribute; and validating
    again changes nothing. *)
Theorem validate_bounded_idempotent (self : DockerBenchmark.t) (w : World) :
  exists v' : Z,
    result (_validate rconfig self) w = inr (set_parallel_jobs self v')
    /\ (v' <= Config.max_parallel_jobs rconfig)%Z
    /\ result (_validate rconfig (set_parallel_jobs self v')) w
       = inr (set_parallel_jobs self v').
Proof.
  unfold result. rewrite validate_spec. cbv zeta.
  destruct (Z.eqb_spec (parallel_jobs self) 0) as [E0|N0];
    destruct (Z.gtb_spec (parallel_jobs self) (Config.max_parallel_jobs rconfig))
      as [G|G]; cbn [orb fst].
  1-3: exists (Config.max_parallel_jobs rconfig);
    split; [reflexivity|]; split; [lia|];
    rewrite validate_spec; cbn [parallel_jobs set_parallel_jobs];
    destruct ((_ =? 0) || _)%Z; reflexivity.
  exists (parallel_jobs self). rewrite set_parallel_jobs_same.
  split; [reflexivity|]. split; [lia|].
  rewrite validate_spec.
  destruct (Z.eqb_spec (parallel_jobs self) 0); [contradiction|].
  destruct (Z.gtb_spec (parallel_jobs self) (Config.max_parallel_jobs rconfig));
    [lia | reflexivity].
Qed.

(** With a ceiling of at least 1, a non-negative request ends within
    [1, ceiling]: [parallel_jobs] is neither 0 nor above the ceiling when
    jobs are made. *)
Theorem validate_in_range (self : DockerBenchmark.t) (w : World) :
  (1 <= Config.max_parallel_jobs rconfig)%Z ->
  (0 <= parallel_jobs self)%Z ->
  exists v' : Z,
    result (_validate rconfig self) w = inr (set_parallel_jobs self v')
    /\ (1 <= v' <= Config.max_parallel_jobs rconfig)%Z.
Proof.
  intros Hmx Hv. unfold result. rewrite validate_spec. cbv zeta.
  destruct (Z.eqb_spec (parallel_jobs self) 0) as [E0|N0];
    destruct (Z.gtb_spec (parallel_jobs self) (Config.max_parallel_jobs rconfig))
      as [G|G]; cbn [orb fst].
  1-3: exists (Config.max_parallel_jobs rconfig); split; [reflexivity | lia].
  exists (parallel_jobs self). rewrite set_parallel_jobs_same.
  split; [reflexivity | lia].
Qed.

Variable _benchmark_jobs : DockerBenchmark.t -> M (list Job.t).

(** X8. Validation, then the run.  With a ceiling of 1 every non-negative
    request runs the whole benchmark as one job, without asking for the
    jobs of the benchmark. *)
Theorem validate_then_run_ceiling_one (self : DockerBenchmark.t) (w : World) :
  Config.max_parallel_jobs rconfig = 1%Z ->
  (0 <= parallel_jobs self)%Z ->
  result (bind (_validate rconfig self)
               (jobs_for_benchmark rconfig _benchmark_jobs)) w
  = inr [_make_job rconfig (set_parallel_jobs self 1) None None].
Proof.
  intros Hmx Hv. unfold result, bind. rewrite validate_spec. cbv zeta.
  rewrite Hmx.
  destruct (Z.eqb_spec (parallel_jobs self) 0) as [E0|N0];
    destruct (Z.gtb_spec (parallel_jobs self) 1) as [G|G]; cbn [orb];
    try reflexivity.
  assert (E : parallel_jobs self = 1%Z) by lia.
  unfold jobs_for_benchmark. rewrite E. cbn.
  rewrite <- E at 1. now rewrite set_parallel_jobs_same.
Qed.

(** X9. A negative request passes validation as it is, and the run then takes
    the parallel branch: its jobs are those of [_benchmark_jobs], and no
    warning is logged. *)
Theorem validate_then_run_negative (self : DockerBenchmark.t) (w : World) :
  (parallel_jobs self < 0)%Z ->
  (parallel_jobs self <= Config.max_parallel_jobs rconfig)%Z ->
  bind (_validate rconfig self) (jobs_for_benchmark rconfig _benchmark_jobs) w
  = _benchmark_jobs self w.
Proof.
  intros Hneg Hle. unfold bind. rewrite (validate_negative _ _ _ Hneg Hle).
  unfold jobs_for_benchmark.
  destruct (Z.eqb_spec (parallel_jobs self) 1); [lia|].
  now destruct (_benchmark_jobs self w).
Qed.

End ValidationFacts.

Lemma validate_in_range_witness :
  exists v' : Z,
    result (_validate Sample.conf (set_parallel_jobs Sample.bench 0)) Sample.quiet
    = inr (set_parallel_jobs (set_parallel_jobs Sample.bench 0) v')
    /\ (1 <= v' <= 4)%Z.
Proof.
  apply (validate_in_range Sample.conf (set_parallel_jobs Sample.bench 0)
           Sample.quiet); simpl; lia.
Defined.

Lemma validate_then_run_ceiling_one_witness :
  result (bind (_validate (Config.mk 1 "/in" "/out" "run.py")
                          (set_parallel_jobs Sample.bench 7))
               (jobs_for_benchmark (Config.mk 1 "/in" "/out" "run.py")
                                   (fun _ => ret [])))
         Sample.quiet
  = inr [_make_job (Config.mk 1 "/in" "/out" "run.py")
                   (set_parallel_jobs (set_parallel_jobs Sample.bench 7) 1)
                   None None].
Proof.
  apply (validate_then_run_ceiling_one (Config.mk 1 "/in" "/out" "run.py")
           (fun _ => ret []) (set_parallel_jobs Sample.bench 7) Sample.quiet).
  - reflexivity.
  - simpl. lia.
Defined.

Lemma validate_then_run_negative_witness :
  bind (_validate Sample.conf (set_parallel_jobs Sample.bench (-2)))
       (jobs_for_benchmark Sample.conf (fun _ => ret []))
       Sample.quiet
  = (inr [], []).
Proof.
  apply (validate_then_run_negative Sample.conf (fun _ => ret [])
           (set_parallel_jobs Sample.bench (-2)) Sample.quiet); simpl; lia.
Defined.

(** ** More on job identifiers and actions *)

Section JobIdentifiers.

Lemma split_at_last (c : ascii) (x1 x2 j1 j2 : string) :
  lacks c j1 = true -> lacks c j2 = true ->
  x1 ++ String c j1 = x2 ++ String c j2 ->
  x1 = x2 /\ j1 = j2.
Proof.
  unfold lacks.
  revert x2. induction x1 as [|a x1 IH]; intros [|b x2] H1 H2 E;
    cbn [String.append] in E.
  - injection E as E. now split.
  - injection E as <- E. rewrite E, all_chars_app in H1. cbn in H1.
    rewrite Ascii.eqb_refl in H1. cbn in H1.
    now rewrite andb_false_r in H1.
  - injection E as -> E. rewrite <- E, all_chars_app in H2. cbn in H2.
    rewrite Ascii.eqb_refl in H2. cbn in H2.
    now rewrite andb_false_r in H2.
  - injection E as -> E. destruct (IH x2 H1 H2 E) as [-> ->]. now split.
Qed.

Lemma split_at_first (c : ascii) (x1 x2 r1 r2 : string) :
  lacks c x1 = true -> lacks c x2 = true ->
  x1 ++ String c r1 = x2 ++ String c r2 ->
  x1 = x2 /\ r1 = r2.
Proof.
  unfold lacks.
  revert x2. induction x1 as [|a x1 IH]; intros [|b x2] H1 H2 E;
    cbn [String.append] in E.
  - injection E as E. now split.
  - injection E as <- E. cbn in H2. rewrite Ascii.eqb_refl in H2. discriminate.
  - injection E as -> E. cbn in H1. rewrite Ascii.eqb_refl in H1. discriminate.
  - injection E as -> E. cbn in H1, H2.
    apply andb_true_iff in H1 as [_ H1]. apply andb_true_iff in H2 as [_ H2].
    destruct (IH x2 H1 H2 E) as [-> ->]. now split.
Qed.

Lemma string_of_uint_no_underscore (d : Decimal.uint) :
  lacks "_" (NilEmpty.string_of_uint d) = true.
Proof. unfold lacks. induction d; simpl; auto. Qed.

Lemma str_of_int_no_underscore (z : Z) : lacks "_" (Py.str_of_int z) = true.
Proof.
  unfold Py.str_of_int, NilZero.string_of_int, NilZero.string_of_uint.
  destruct (Z.to_int z) as [d|d]; destruct d; simpl;
    try reflexivity; apply string_of_uint_no_underscore.
Qed.

Lemma all_chars_join (p : ascii -> bool) (sep : string) (l : list string) :
  all_chars p sep = true ->
  Forall (fun s => all_chars p s = true) l ->
  all_chars p (Py.join sep l) = true.
Proof.
  intros Hsep. induction 1 as [|x l Hx Hl IH]; [reflexivity|].
  rewrite join_cons, all_chars_app, Hx. cbn [andb].
  destruct l; [reflexivity|]. now rewrite all_chars_app, Hsep, IH.
Qed.

Lemma joined_folds_no_underscore (l : list Z) :
  lacks "_" (Py.join ":" (List.map Py.str_of_int l)) = true.
Proof.
  apply all_chars_join; [reflexivity|].
  apply Forall_forall. intros s Hs. apply in_map_iff in Hs as [z [<- _]].
  apply str_of_int_no_underscore.
Qed.

Variable rconfig : Config.t.
Variable self : DockerBenchmark.t.

Lemma make_job_name (task_name : option string) (folds : option (list Z)) :
  Job.name (_make_job rconfig self task_name folds)
  = "docker_"
    ++ (filed_under self task_name
        ++ String "_" (Py.join ":" (List.map Py.str_of_int (folds_of folds))))
    ++ "_" ++ framework_name self.
Proof.
  unfold _make_job, job_name, filed_under. cbn [Job.name].
  rewrite str_app_assoc. now destruct folds.
Qed.

(** X10. Two jobs of one benchmark object have the same identifier exactly when
    they are filed under the same name (the task name, or the benchmark name
    for no or an empty task name) and have the same list of folds: the
    identifier tells the task and the folds apart, also for task names that
    hold underscores or digits; and a job of the whole benchmark collides
    with the job of a task named like the benchmark. *)
Theorem job_name_collision_iff (t1 t2 : option string) (f1 f2 : option (list Z)) :
  Job.name (_make_job rconfig self t1 f1) = Job.name (_make_job rconfig self t2 f2)
  <-> filed_under self t1 = filed_under self t2 /\ folds_of f1 = folds_of f2.
Proof.
  rewrite !make_job_name. split.
  - intros E. apply (str_app_inv_head "docker_") in E.
    apply str_app_inv_tail in E.
    apply split_at_last in E as [Et Ef];
      try apply joined_folds_no_underscore.
    split; [exact Et | now apply join_folds_inj].
  - intros [-> ->]. reflexivity.
Qed.

(** X11. The jobs made fold by fold for one task have pairwise distinct
    identifiers exactly when no fold is named twice. *)
Theorem fold_job_names_nodup_iff (task_def : TaskDef.t) (l : list Z) :
  NoDup (List.map (fun f => Job.name (_fold_job rconfig self task_def f)) l)
  <-> NoDup l.
Proof.
  split.
  - apply NoDup_map_inv.
  - apply fold_jobs_names_nodup.
Qed.

(** X12. The action of a job announces its command in the log before it runs it;
    it fails exactly when the container run fails, with the error of the
    run, and logs the output of the run only when the run returned. *)
Theorem job_action_outcome (task_name : option string) (folds : option (list Z))
        (w : World) :
  let job := _make_job rconfig self task_name folds in
  let cmd := start_command rconfig self
               (script_params self task_name
                  (List.map Py.str_of_int (folds_of folds))) in
  (exists rest : list Event,
      trace (Job._run job) w
      = Log INFO ("Starting docker: " ++ cmd) :: rest
      /\ effects rest = [RunCmd cmd])
  /\ (forall e : Exn,
         result (Job._run job) w = inl e <-> world_run_cmd w cmd = inl e)
  /\ (forall out : string,
         In (Log DEBUG out) (trace (Job._run job) w)
         <-> world_run_cmd w cmd = inr out).
Proof.
  cbv zeta. unfold result, trace, _make_job, _start_docker, bind, log, run_cmd.
  cbn [Job._run].
  replace (match folds with
           | Some l => List.map Py.str_of_int l
           | None => []
           end) with (List.map Py.str_of_int (folds_of folds))
    by now destruct folds.
  destruct (world_run_cmd w _) as [e0|out0]; cbn.
  - split; [eexists; split; reflexivity|].
    split.
    + intros e. split; intros [= ->]; reflexivity.
    + intros out. split; [|discriminate].
      intros [H|[H|[H|[H|[]]]]]; discriminate.
  - split; [eexists; split; reflexivity|].
    split.
    + intros e. split; discriminate.
    + intros out. split.
      * intros [H|[H|[H|[H|[H|[]]]]]]; try discriminate.
        injection H as ->. reflexivity.
      * intros [= ->]. do 4 right. left. reflexivity.
Qed.

End JobIdentifiers.

(** ** More on the existence check: white space *)

Section WhiteSpace.

Lemma lstrip_spaces (a s : string) :
  all_chars Py.isspace a = true -> Py.lstrip (a ++ s) = Py.lstrip s.
Proof.
  induction a as [|c a IH]; intros H; [reflexivity|].
  cbn in H. apply andb_true_iff in H as [Hc Ha].
  change (String c a ++ s) with (String c (a ++ s)).
  cbn [Py.lstrip]. rewrite Hc. now apply IH.
Qed.

Lemma rstrip_all_spaces (b : string) :
  all_chars Py.isspace b = true -> Py.rstrip b = EmptyString.
Proof.
  induction b as [|c b IH]; intros H; [reflexivity|].
  cbn in H. apply andb_true_iff in H as [Hc Hb].
  cbn [Py.rstrip]. now rewrite (IH Hb), Hc.
Qed.

Lemma rstrip_spaces (s b : string) :
  all_chars Py.isspace b = true -> Py.rstrip (s ++ b) = Py.rstrip s.
Proof.
  intros Hb. induction s as [|c s IH].
  - change (EmptyString ++ b) with b. now apply rstrip_all_spaces.
  - change (String c s ++ b) with (String c (s ++ b)).
    cbn [Py.rstrip]. now rewrite IH.
Qed.

Lemma lstrip_all_spaces (b : string) :
  all_chars Py.isspace b = true -> Py.lstrip b = EmptyString.
Proof.
  induction b as [|c b IH]; intros H; [reflexivity|].
  cbn in H. apply andb_true_iff in H as [Hc Hb].
  cbn [Py.lstrip]. rewrite Hc. now apply IH.
Qed.

Lemma strip_trailing_spaces (s b : string) :
  all_chars Py.isspace b = true -> Py.strip (s ++ b) = Py.strip s.
Proof.
  intros Hb. unfold Py.strip. induction s as [|c s IH].
  - change (EmptyString ++ b) with b. now rewrite lstrip_all_spaces.
  - change (String c s ++ b) with (String c (s ++ b)).
    cbn [Py.lstrip]. destruct (Py.isspace c); [exact IH|].
    change (String c (s ++ b)) with (String c s ++ b).
    now apply rstrip_spaces.
Qed.

(** [strip] removes the white space around a text. *)
Lemma strip_surrounded (a s b : string) :
  all_chars Py.isspace a = true -> all_chars Py.isspace b = true ->
  Py.strip (a ++ s ++ b) = Py.strip s.
Proof.
  intros Ha Hb. unfold Py.strip. rewrite (lstrip_spaces a _ Ha).
  now apply strip_trailing_spaces.
Qed.

Lemma hex_not_space (c : ascii) : Py.is_hex c = true -> Py.isspace c = false.
Proof.
  unfold Py.is_hex, Py.isspace, Py.in_range. intros H.
  apply orb_true_iff in H as [H|H]; apply andb_true_iff in H as [H1 H2];
    apply N.leb_le in H1, H2;
    repeat (apply orb_false_iff; split);
    try (apply andb_false_iff; first [left; apply N.leb_gt; lia
                                     | right; apply N.leb_gt; lia]);
    apply N.eqb_neq; lia.
Qed.

Lemma lstrip_hex (s : string) : all_chars Py.is_hex s = true -> Py.lstrip s = s.
Proof.
  destruct s as [|c s]; [reflexivity|]. cbn. intros H.
  apply andb_true_iff in H as [Hc _]. now rewrite (hex_not_space c Hc).
Qed.

Lemma rstrip_hex (s : string) : all_chars Py.is_hex s = true -> Py.rstrip s = s.
Proof.
  induction s as [|c s IH]; [reflexivity|]. cbn [all_chars Py.rstrip]. intros H.
  apply andb_true_iff in H as [Hc Hs]. rewrite (IH Hs).
  destruct s; [now rewrite (hex_not_space c Hc) | reflexivity].
Qed.

(** X13. The existence check ignores the white space around the answer of the
    engine: an identifier wrapped in blanks, tabs, carriage returns or line
    feeds is found, and what is matched is the bare identifier. *)
Theorem image_exists_ignores_white_space
        (self : DockerBenchmark.t) (w : World) (a id b : string) :
  all_chars Py.isspace a = true ->
  all_chars Py.isspace b = true ->
  hex_identifier id = true ->
  world_run_cmd w (query_command self) = inr (a ++ id ++ b) ->
  result (_docker_image_exists self) w = inr (Some id).
Proof.
  intros Ha Hb Hid Hout. unfold result, query_command in *.
  rewrite (docker_image_exists_runs self w _ Hout). cbn [fst].
  rewrite strip_surrounded by assumption.
  assert (Hs : Py.strip id = id).
  { unfold hex_identifier in Hid. apply andb_true_iff in Hid as [_ Hall].
    unfold Py.strip. now rewrite lstrip_hex, rstrip_hex. }
  rewrite Hs. now rewrite re_match_hex_identifier.
Qed.

(** X14. An answer of two identifiers on two lines is not an identifier: the
    check finds no image, whatever the identifiers. *)
Theorem image_exists_rejects_two_lines
        (self : DockerBenchmark.t) (w : World) (id1 id2 : string) :
  hex_identifier id1 = true ->
  hex_identifier id2 = true ->
  world_run_cmd w (query_command self) = inr (id1 ++ Py.nl ++ id2 ++ Py.nl) ->
  result (_docker_image_exists self) w = inr None.
Proof.
  intros H1 H2 Hout. unfold result, query_command in *.
  rewrite (docker_image_exists_runs self w _ Hout). cbn [fst].
  replace (id1 ++ Py.nl ++ id2 ++ Py.nl) with ((id1 ++ Py.nl ++ id2) ++ Py.nl)
    by now rewrite !str_app_assoc.
  rewrite strip_trailing_spaces by reflexivity.
  assert (Hall : forall s, hex_identifier s = true -> all_chars Py.is_hex s = true).
  { intros s Hs. unfold hex_identifier in Hs. now apply andb_true_iff in Hs. }
  assert (Hne : exists c r, id2 = String c r /\ Py.isspace c = false).
  { destruct id2 as [|c r]; [discriminate|]. exists c, r. split; [reflexivity|].
    apply hex_not_space. apply Hall in H2. cbn in H2.
    now apply andb_true_iff in H2. }
  destruct Hne as [c [r [-> Hc]]].
  assert (Hs : Py.strip (id1 ++ Py.nl ++ String c r) = id1 ++ Py.nl ++ String c r).
  { unfold Py.strip.
    assert (Hl : Py.lstrip (id1 ++ Py.nl ++ String c r) = id1 ++ Py.nl ++ String c r).
    { destruct id1 as [|c1 r1]; [discriminate|].
      change (String c1 r1 ++ Py.nl ++ String c r)
        with (String c1 (r1 ++ Py.nl ++ String c r)).
      cbn [Py.lstrip]. rewrite hex_not_space; [reflexivity|].
      apply Hall in H1. cbn in H1. now apply andb_true_iff in H1. }
    rewrite Hl.
    assert (Hr : Py.rstrip (String c r) = String c r) by (apply rstrip_hex; auto).
    assert (Hg : forall x y, Py.rstrip y = y -> y <> EmptyString ->
                             Py.rstrip (x ++ y) = x ++ y).
    { intros x y Hy Hyne. induction x as [|d x IH].
      - exact Hy.
      - change (String d x ++ y) with (String d (x ++ y)).
        cbn [Py.rstrip]. rewrite IH.
        destruct (x ++ y) eqn:Exy; [|reflexivity].
        destruct x; [now elim Hyne | discriminate]. }
    rewrite <- str_app_assoc. apply Hg; [exact Hr | discriminate]. }
  rewrite re_match_strip, Hs.
  change (id1 ++ Py.nl ++ String c r) with (id1 ++ String Py.LF (String c r)).
  now rewrite hex_identifier_outside by reflexivity.
Qed.

End WhiteSpace.

Lemma image_exists_ignores_white_space_witness :
  result (_docker_image_exists Sample.bench)
         (mkWorld (fun _ => inr ("  " ++ "0f3a9c" ++ String (ascii_of_nat 13) Py.nl))
                  (fun _ _ => inr tt))
  = inr (Some "0f3a9c").
Proof.
  apply (image_exists_ignores_white_space Sample.bench
           (mkWorld (fun _ => inr ("  " ++ "0f3a9c" ++ String (ascii_of_nat 13) Py.nl))
                    (fun _ _ => inr tt))
           "  " "0f3a9c" (String (ascii_of_nat 13) Py.nl)); reflexivity.
Defined.

Lemma image_exists_rejects_two_lines_witness :
  result (_docker_image_exists Sample.bench)
         (mkWorld (fun _ => inr ("0f3a9c" ++ Py.nl ++ "77aa01" ++ Py.nl))
                  (fun _ _ => inr tt))
  = inr None.
Proof.
  apply (image_exists_rejects_two_lines Sample.bench
           (mkWorld (fun _ => inr ("0f3a9c" ++ Py.nl ++ "77aa01" ++ Py.nl))
                    (fun _ _ => inr tt))
           "0f3a9c" "77aa01"); reflexivity.
Defined.

(** ** More on the image reference *)

Section ImageReference.

Lemma docker_image_name_component (d : FrameworkDef.t) :
  docker_image_name d
  = DockerImage.author (FrameworkDef.docker_image d)
    ++ String "/" (image_component d
                   ++ String ":" (DockerImage.tag (FrameworkDef.docker_image d))).
Proof. reflexivity. Qed.

(** X15. The reference can be read back: when the authors hold no slash and the
    image parts no colon, two definitions with the same reference have the
    same author, the same image part and the same tag, so that two
    frameworks share an image only if they agree on all three. *)
Theorem docker_image_name_injective (d1 d2 : FrameworkDef.t) :
  lacks "/" (DockerImage.author (FrameworkDef.docker_image d1)) = true ->
  lacks "/" (DockerImage.author (FrameworkDef.docker_image d2)) = true ->
  lacks ":" (image_component d1) = true ->
  lacks ":" (image_component d2) = true ->
  docker_image_name d1 = docker_image_name d2 ->
  DockerImage.author (FrameworkDef.docker_image d1)
  = DockerImage.author (FrameworkDef.docker_image d2)
  /\ image_component d1 = image_component d2
  /\ DockerImage.tag (FrameworkDef.docker_image d1)
     = DockerImage.tag (FrameworkDef.docker_image d2).
Proof.
  intros Ha1 Ha2 Hi1 Hi2 E. rewrite !docker_image_name_component in E.
  apply split_at_first in E as [Ea E]; try assumption.
  apply split_at_first in E as [Ei Et]; try assumption.
  now repeat split.
Qed.

Lemma lower_char_not_upper (c : ascii) : is_upper (Py.lower_char c) = false.
Proof.
  destruct c as [[] [] [] [] [] [] [] []]; reflexivity.
Qed.

Lemma lower_no_upper (s : string) :
  all_chars (fun c => negb (is_upper c)) (Py.lower s) = true.
Proof.
  induction s as [|c s IH]; [reflexivity|].
  cbn [Py.lower all_chars]. now rewrite lower_char_not_upper, IH.
Qed.

Lemma lower_char_fixed (c : ascii) : is_upper c = false -> Py.lower_char c = c.
Proof.
  unfold is_upper, Py.lower_char. now intros ->.
Qed.

Lemma lower_idempotent (s : string) : Py.lower (Py.lower s) = Py.lower s.
Proof.
  induction s as [|c s IH]; [reflexivity|].
  cbn [Py.lower]. rewrite IH. f_equal.
  apply lower_char_fixed, lower_char_not_upper.
Qed.

(** X16. Without an image of its own (none, or an empty one) a framework gets an
    image part free of the capital letters A .. Z, which the engine refuses
    in repository names, whatever the capitals of its name; and the
    reference does not change when the framework name is replaced by its
    lower-cased form. *)
Theorem default_image_lower_case (name author tag : string) (image : option string) :
  image = None \/ image = Some EmptyString ->
  let d := FrameworkDef.mk name (DockerImage.mk author image tag) in
  all_chars (fun c => negb (is_ascii_upper c)) (image_component d) = true
  /\ docker_image_name d = author ++ "/" ++ image_component d ++ ":" ++ tag
  /\ docker_image_name
       (FrameworkDef.mk (Py.lower name) (DockerImage.mk author image tag))
     = docker_image_name d.
Proof.
  intros [-> | ->]; cbv zeta; rewrite !docker_image_name_fields;
    unfold image_component; cbn;
    rewrite lower_idempotent;
    (split; [apply lower_no_ascii_upper | split; reflexivity]).
Qed.

End ImageReference.

Lemma docker_image_name_injective_witness :
  DockerImage.author (FrameworkDef.docker_image Sample.h2o_def) = "org"
  /\ image_component Sample.h2o_def = "h2o"
  /\ DockerImage.tag (FrameworkDef.docker_image Sample.h2o_def) = "stable".
Proof.
  apply (docker_image_name_injective Sample.h2o_def
           (FrameworkDef.mk "H2O" (DockerImage.mk "org" (Some "h2o") "stable")));
    reflexivity.
Defined.

Lemma default_image_lower_case_witness :
  docker_image_name
    (FrameworkDef.mk "AutoSklearn" (DockerImage.mk "org" (Some EmptyString) "latest"))
  = "org/autosklearn:latest"
  /\ docker_image_name
       (FrameworkDef.mk "autosklearn" (DockerImage.mk "org" (Some EmptyString) "latest"))
     = "org/autosklearn:latest".
Proof.
  destruct (default_image_lower_case "AutoSklearn" "org" "latest"
              (Some EmptyString) (or_intror eq_refl)) as (_ & Href & Hsame).
  split; [exact Href | exact Hsame].
Defined.

(** ** The build descriptor *)

(** X17. Everything the descriptor holds before the custom commands is one fixed
    text, which starts from the base image and sets neither an entry point
    nor a default command; the custom commands follow it verbatim, and after
    them come only the entry point, which runs the configured script, and
    the default command, which names the framework and the benchmark
    [test]. *)
Theorem docker_content_shape :
  exists head : string,
    String.prefix ("FROM ubuntu:18.04" ++ Py.nl) head = true
    /\ Py.contains "ENTRYPOINT" head = false
    /\ Py.contains "CMD" head = false
    /\ forall (rconfig : Config.t) (self : DockerBenchmark.t) (custom_commands : string),
        docker_content rconfig self custom_commands
        = head ++ custom_commands ++ Py.nl ++ Py.nl
          ++ "# https://docs.docker.com/engine/reference/builder/#entrypoint" ++ Py.nl
          ++ "ENTRYPOINT [" ++ Py.dq ++ "/bin/bash" ++ Py.dq ++ ", "
          ++ Py.dq ++ "-c" ++ Py.dq ++ ", "
          ++ Py.dq ++ "$PY " ++ Config.script rconfig ++ " $0 $*" ++ Py.dq ++ "]"
          ++ Py.nl
          ++ "CMD [" ++ Py.dq ++ framework_name self ++ Py.dq ++ ", "
          ++ Py.dq ++ "test" ++ Py.dq ++ "]" ++ Py.nl ++ Py.nl.
Proof.
  let c := eval vm_compute in
             (docker_content Sample.conf Sample.bench EmptyString) in
  let t := eval vm_compute in
             (String.length
                (docker_content Sample.conf Sample.bench EmptyString)
              - String.length
                  (Py.nl ++ Py.nl
                   ++ "# https://docs.docker.com/engine/reference/builder/#entrypoint"
                   ++ Py.nl
                   ++ "ENTRYPOINT [" ++ Py.dq ++ "/bin/bash" ++ Py.dq ++ ", "
                   ++ Py.dq ++ "-c" ++ Py.dq ++ ", "
                   ++ Py.dq ++ "$PY " ++ Config.script Sample.conf ++ " $0 $*"
                   ++ Py.dq ++ "]" ++ Py.nl
                   ++ "CMD [" ++ Py.dq ++ framework_name Sample.bench ++ Py.dq
                   ++ ", " ++ Py.dq ++ "test" ++ Py.dq ++ "]" ++ Py.nl ++ Py.nl))%nat in
  let h := eval vm_compute in (String.substring 0 t c) in
  exists h.
  split; [vm_compute; reflexivity|].
  split; [vm_compute; reflexivity|].
  split; [vm_compute; reflexivity|].
  intros rconfig self custom_commands.
  unfold docker_content, Py.join. cbn [String.concat].
  rewrite !str_app_assoc. reflexivity.
Qed.
